(** * tmfs_scraping.py: category pagination and product extraction

    A shallow embedding of [src/tmfs_scraping.py].  The script fetches the
    listing pages of a shop category, parses up to three product pages per
    listing, and follows the "next" link recursively.

    The libraries the script calls (requests, BeautifulSoup, json, pydantic,
    time) are not part of the repository: their behaviour enters through the
    class [Externals] and through small models of the few operations the
    script uses.  Effects are explicit: a computation threads the log of the
    calls made to [time.sleep] and [s.get], and either returns a value or
    raises a Python exception. *)

From Stdlib Require Import ZArith String List Bool Lia.
From stdpp Require Import base option list gmap strings.
Import ListNotations.

Local Open Scope string_scope.
Local Open Scope Z_scope.

Set Warnings "-register-all".

(** ** Python values *)

(** What [json.loads] can return, and what the script stores in the
    [parsed_product] dictionary.  [F] is the type of Python floats, kept
    opaque.  A dict is the list of its items in insertion order; the decoder
    produces each key once. *)
Inductive pyval (F : Type) : Type :=
| PNone
| PBool (b : bool)
| PInt (z : Z)
| PFloat (f : F)
| PStr (s : string)
| PList (l : list (pyval F))
| PDict (d : list (string * pyval F)).

Arguments PNone {F}.
Arguments PBool {F} b.
Arguments PInt {F} z.
Arguments PFloat {F} f.
Arguments PStr {F} s.
Arguments PList {F} l.
Arguments PDict {F} d.

(** The exceptions the script can meet. *)
Inductive exn : Type :=
| AttributeError      (* attribute access on None, or on a value without it *)
| TypeError           (* json.loads(None), None[0], iteration over a number,
                         time.sleep(None) *)
| IndexError          (* [...][0] on an empty list *)
| KeyError            (* a dict indexed with 0 *)
| ValueError          (* time.sleep of a negative duration *)
| JSONDecodeError     (* json.loads on a malformed document *)
| ValidationError     (* pydantic rejects the keyword arguments *)
| RequestException    (* the HTTP client fails, including an invalid URL *)
| RecursionError.     (* the recursion limit is exceeded *)

Inductive outcome (A : Type) : Type :=
| Ok (a : A)
| Raise (e : exn).

Arguments Ok {A} a.
Arguments Raise {A} e.

Definition obind {A B} (x : outcome A) (f : A -> outcome B) : outcome B :=
  match x with
  | Ok a => f a
  | Raise e => Raise e
  end.

Definition omap {A B} (f : A -> B) (x : outcome A) : outcome B :=
  obind x (fun a => Ok (f a)).

(** [x.attr] where [x] may be None. *)
Definition not_none {A} (x : option A) : outcome A :=
  match x with
  | Some a => Ok a
  | None => Raise AttributeError
  end.

(** A list comprehension whose element expression may raise. *)
Fixpoint omapM {A B} (f : A -> outcome B) (l : list A) : outcome (list B) :=
  match l with
  | [] => Ok []
  | a :: l' =>
      obind (f a) (fun b => obind (omapM f l') (fun bs => Ok (b :: bs)))
  end.

(** ** The parsed HTML document (BeautifulSoup) *)

(** An element keeps its [class] attribute apart from the others: bs4
    stores [class] as a list of tokens, and the other attributes read by the
    script ([href], [type], [data-product_variations]) as plain strings. *)
Inductive Tag : Type :=
| NavigableString (s : string)
| Element (name : string) (attrs : gmap string string)
          (class : option (list string)) (contents : list Tag).

(** What an attribute is matched against: a string, or a predicate that
    also receives None when the attribute is absent. *)
Inductive matcher : Type :=
| MStr (s : string)
| MFun (f : option string -> bool).

Record query : Type := Query {
  q_name : string;
  q_attrs : list (string * matcher);
  q_class : option matcher
}.

(** All the nodes below [t], in document order. *)
Fixpoint descendants (t : Tag) : list Tag :=
  match t with
  | NavigableString _ => []
  | Element _ _ _ cs => flat_map (fun c => c :: descendants c) cs
  end.

Definition tag_get (t : Tag) (key : string) : option string :=
  match t with
  | NavigableString _ => None
  | Element _ attrs _ _ => attrs !! key
  end.



Definition own_string (t : Tag) : string :=
  match t with
  | NavigableString s => s
  | Element _ _ _ _ => ""
  end.

(** [tag.get_text()]: the strings below the tag, concatenated. *)
Definition get_text (t : Tag) : string :=
  String.concat "" (map own_string (descendants t)).

(** bs4's [_matches] on a single string value. *)
Definition matches_value (value : option string) (m : matcher) : bool :=
  match m with
  | MStr s =>
      match value with
      | Some v => String.eqb v s
      | None => false
      end
  | MFun f => f value
  end.

(** bs4's [_matches] on [class]: some token matches, or the tokens joined
    by a space match; an absent attribute is matched as None. *)
Definition matches_class (value : option (list string)) (m : matcher) : bool :=
  match value with
  | None => matches_value None m
  | Some toks =>
      existsb (fun t => matches_value (Some t) m) toks
      || matches_value (Some (String.concat " " toks)) m
  end.

Definition matches (q : query) (t : Tag) : bool :=
  match t with
  | NavigableString _ => false
  | Element n attrs cls _ =>
      String.eqb n (q_name q)
      && forallb (fun '(k, m) => matches_value (attrs !! k) m) (q_attrs q)
      && match q_class q with
         | None => true
         | Some m => matches_class cls m
         end
  end.

Definition find_all (t : Tag) (q : query) : list Tag :=
  List.filter (matches q) (descendants t).

Definition find (t : Tag) (q : query) : option Tag :=
  head (find_all t q).

(** ** Effects: the log of external calls *)

(** Which [s.get] of the script issued a request: line 47 (listing page),
    line 53 (product page), line 129 (home page) or line 23 ([safe_get]).
    The label is ghost state; the server is not told. *)
Inductive call_site : Type :=
| ListingFetch
| ProductFetch
| HomeFetch
| GateFetch.

(** One entry per call of [time.sleep] or [s.get], with its argument. *)
Inductive event : Type :=
| Sleep (d : option Z)
| Get (c : call_site) (url : option string).

(** What the script takes from its libraries and from the outside world. *)
Class Externals : Type := {
  (** Python's float values. *)
  pyfloat : Type;
  (** [float(n)] and [float(s)]; the latter is None when Python raises. *)
  float_of_int : Z -> pyfloat;
  float_of_str : string -> option pyfloat;
  (** [str(n)] and [str(x)]. *)
  str_of_int : Z -> string;
  str_of_float : pyfloat -> string;
  (** [BeautifulSoup(text, 'html.parser')]; it accepts any text. *)
  BeautifulSoup : string -> Tag;
  (** [json.loads] on a string; None when the document is malformed. *)
  json_decode : string -> option (pyval pyfloat);
  (** [date.today().strftime("%Y-%m-%d")] when the module is loaded. *)
  today : string;
  (** The body served to a GET, given the request headers, the URLs
      requested so far and the URL; None when the client raises. *)
  http : gmap string string -> list (option string) -> string -> option string
}.

Definition M (A : Type) : Type := list event -> outcome A * list event.

Definition ret {A} (a : A) : M A := fun h => (Ok a, h).

Definition raise {A} (e : exn) : M A := fun h => (Raise e, h).

Definition bind {A B} (m : M A) (f : A -> M B) : M B :=
  fun h =>
    match m h with
    | (Ok a, h') => f a h'
    | (Raise e, h') => (Raise e, h')
    end.

Definition lift {A} (x : outcome A) : M A := fun h => (x, h).

(** [try: body except AttributeError: handler]. The calls made by [body]
    before it raised stay in the log. *)
Definition try_except_AttributeError {A} (body handler : M A) : M A :=
  fun h =>
    match body h with
    | (Raise AttributeError, h') => handler h'
    | r => r
    end.

Declare Scope outcome_scope.
Delimit Scope outcome_scope with O.
Declare Scope M_scope.
Delimit Scope M_scope with M.

Notation "x <- c ;; k" := (obind c (fun x => k))
  (at level 100, c at next level, right associativity) : outcome_scope.
Notation "x <- c ;; k" := (bind c (fun x => k))
  (at level 100, c at next level, right associativity) : M_scope.
Notation "c ;; k" := (bind c (fun _ => k))
  (at level 100, right associativity) : M_scope.

(** The URLs requested in a log, whatever the call site. *)
Definition requested (h : list event) : list (option string) :=
  flat_map (fun e => match e with Get _ u => [u] | Sleep _ => [] end) h.

(** [time.sleep(d)]: None is not a number, and a negative duration is
    rejected. *)
Definition time_sleep (d : option Z) : M unit :=
  fun h =>
    let h' := (h ++ [Sleep d])%list in
    match d with
    | None => (Raise TypeError, h')
    | Some z => if z <? 0 then (Raise ValueError, h') else (Ok tt, h')
    end.

Record Response : Type := { text : string }.

Record Session : Type := { headers : gmap string string }.

(** ** The record type (lines 90-105) *)

(** The fields of the pydantic model [Product]; [F] is the type of floats.
    A field declared [str = None] or [float = None] may hold None. *)
Module Product.
Record t (F : Type) : Type := mk {
  link : string;
  source : string;
  category : option string;
  subcategory : option string;
  subsubcategory : option string;
  name : option string;
  brand : option string;
  size : option string;
  uid : option string;
  price : F;
  regular_price : option F;
  currency : string;
  in_stock : option string;
  description : option string;
  date : string
}.
Arguments mk {F}.
Arguments link {F}.
Arguments source {F}.
Arguments category {F}.
Arguments subcategory {F}.
Arguments subsubcategory {F}.
Arguments name {F}.
Arguments brand {F}.
Arguments size {F}.
Arguments uid {F}.
Arguments price {F}.
Arguments regular_price {F}.
Arguments currency {F}.
Arguments in_stock {F}.
Arguments description {F}.
Arguments date {F}.
End Product.

Section Script.

Context `{Externals}.

Local Abbreviation value := (pyval pyfloat).

(** [s.get(url)] at call site [c]. A URL that is None is rejected by the
    client before any request is sent. *)
Definition session_get (s : Session) (c : call_site) (url : option string)
  : M Response :=
  fun h =>
    let h' := (h ++ [Get c url])%list in
    match url with
    | None => (Raise RequestException, h')
    | Some u =>
        match http (headers s) (requested h) u with
        | Some body => (Ok {| text := body |}, h')
        | None => (Raise RequestException, h')
        end
    end.

(** The parsed robots.txt, through the two methods the script calls. *)
Record RobotFileParser : Type := {
  can_fetch : option string -> string -> bool;
  crawl_delay : option string -> option Z
}.

(** Lines 12-26. *)
Definition safe_get (s : Session) (robots : RobotFileParser) (link : string)
  : M (option Response) :=
  if can_fetch robots (headers s !! "User-Agent") link then
    (response <- session_get s GateFetch (Some link) ;;
     ret (Some response))%M
  else
    ret None.

(** ** Building a record: pydantic (version 1) validation *)

(** The [str] validator: strings pass, numbers are converted. *)
Definition str_validator (v : value) : outcome string :=
  match v with
  | PStr s => Ok s
  | PInt z => Ok (str_of_int z)
  | PFloat f => Ok (str_of_float f)
  | PBool b => Ok (if b then "True" else "False")
  | _ => Raise ValidationError
  end.

(** The [float] validator: [float(v)], an error where Python raises. *)
Definition float_validator (v : value) : outcome pyfloat :=
  match v with
  | PFloat f => Ok f
  | PInt z => Ok (float_of_int z)
  | PBool b => Ok (float_of_int (if b then 1 else 0))
  | PStr s =>
      match float_of_str s with
      | Some f => Ok f
      | None => Raise ValidationError
      end
  | _ => Raise ValidationError
  end.

(** A field without default: the key must be given, and not None. *)
Definition required {T} (validator : value -> outcome T) (x : option value)
  : outcome T :=
  match x with
  | None => Raise ValidationError
  | Some PNone => Raise ValidationError
  | Some v => validator v
  end.

(** A field with a default that is not None: a given value is validated. *)
Definition defaulted {T} (validator : value -> outcome T) (default : T)
  (x : option value) : outcome T :=
  match x with
  | None => Ok default
  | Some v => required validator (Some v)
  end.

(** A field whose default is None: None is accepted as given. *)
Definition optional {T} (validator : value -> outcome T) (x : option value)
  : outcome (option T) :=
  match x with
  | None => Ok None
  | Some PNone => Ok None
  | Some v => omap Some (validator v)
  end.

(** Calling the model class on keyword arguments [kw], for [Product] and its subclasses, which differ in the
    defaults of [source] and [currency] (None: no default). Keys that name
    no field are ignored. *)
Definition BaseModel_init (source_default currency_default : option string)
  (kw : gmap string value) : outcome (Product.t pyfloat) :=
  (link <- required str_validator (kw !! "link") ;;
   source <- match source_default with
             | Some d => defaulted str_validator d (kw !! "source")
             | None => required str_validator (kw !! "source")
             end ;;
   category <- optional str_validator (kw !! "category") ;;
   subcategory <- optional str_validator (kw !! "subcategory") ;;
   subsubcategory <- optional str_validator (kw !! "subsubcategory") ;;
   name <- optional str_validator (kw !! "name") ;;
   brand <- optional str_validator (kw !! "brand") ;;
   size <- optional str_validator (kw !! "size") ;;
   uid <- optional str_validator (kw !! "uid") ;;
   price <- required float_validator (kw !! "price") ;;
   regular_price <- optional float_validator (kw !! "regular_price") ;;
   currency <- match currency_default with
               | Some d => defaulted str_validator d (kw !! "currency")
               | None => required str_validator (kw !! "currency")
               end ;;
   in_stock <- optional str_validator (kw !! "in_stock") ;;
   description <- optional str_validator (kw !! "description") ;;
   date <- defaulted str_validator today (kw !! "date") ;;
   Ok (Product.mk link source category subcategory subsubcategory name brand
         size uid price regular_price currency in_stock description date))%O.

(** Lines 90-105. *)
Definition Product (kw : gmap string value) : outcome (Product.t pyfloat) :=
  BaseModel_init None None kw.

(** Lines 107-109. *)
Definition Themarket (kw : gmap string value) : outcome (Product.t pyfloat) :=
  BaseModel_init (Some "The Market Food Shop") (Some "NGN") kw.

(** ** Operations on decoded JSON *)

(** [json.loads(x)]: None is a TypeError, a malformed document a
    JSONDecodeError. *)
Definition json_loads (x : option string) : outcome value :=
  match x with
  | None => Raise TypeError
  | Some doc =>
      match json_decode doc with
      | Some v => Ok v
      | None => Raise JSONDecodeError
      end
  end.

Fixpoint dict_lookup (d : list (string * value)) (key : string)
  : option value :=
  match d with
  | [] => None
  | (k, v) :: d' => if String.eqb k key then Some v else dict_lookup d' key
  end.

(** [v.get(key)]: only a dict has the method; a missing key gives None. *)
Definition py_get (v : value) (key : string) : outcome value :=
  match v with
  | PDict d => Ok (default PNone (dict_lookup d key))
  | _ => Raise AttributeError
  end.

(** [v.items()]. *)
Definition py_items (v : value) : outcome (list (string * value)) :=
  match v with
  | PDict d => Ok d
  | _ => Raise AttributeError
  end.

(** [v[0]]. *)
Definition py_index0 (v : value) : outcome value :=
  match v with
  | PList [] => Raise IndexError
  | PList (x :: _) => Ok x
  | PStr EmptyString => Raise IndexError
  | PStr (String c _) => Ok (PStr (String c EmptyString))
  | PDict _ => Raise KeyError
  | _ => Raise TypeError
  end.

(** The elements visited by [for item in v]. *)
Definition py_iter (v : value) : outcome (list value) :=
  match v with
  | PList l => Ok l
  | PDict d => Ok (map (fun kv => PStr (fst kv)) d)
  | PStr s =>
      Ok (map (fun c => PStr (String c EmptyString)) (list_ascii_of_string s))
  | _ => Raise TypeError
  end.

Definition py_of_option (x : option string) : value :=
  match x with
  | Some s => PStr s
  | None => PNone
  end.

(** ** The product page (lines 55-75) *)

Definition product_title_query : query :=
  Query "h1" [] (Some (MStr "product_title")).

Definition variations_form_query : query :=
  Query "form" [] (Some (MStr "variations_form")).

(** [find("script", {"type": "application/ld+json"},
          class_=lambda x: x != "yoast-schema-graph")]. *)
Definition ld_json_query : query :=
  Query "script" [("type", MStr "application/ld+json")]
    (Some (MFun (fun x =>
       match x with
       | Some c => negb (String.eqb c "yoast-schema-graph")
       | None => true
       end))).

Section Parser.

Context {R : Type} (Item : gmap string value -> outcome R).

(** Lines 60-64: the loop over the variants.  [parsed_product] is one
    dictionary updated in place; each record is built from its current
    content. *)
Fixpoint variants_loop (parsed_product : gmap string value)
  (data_json : list value) (results : list R) : outcome (list R) :=
  match data_json with
  | [] => Ok results
  | item :: rest =>
      (attributes <- py_get item "attributes" ;;
       items <- py_items attributes ;;
       size <- match List.filter (fun kv => String.prefix "attri" (fst kv))
                       items with
               | [] => Raise IndexError
               | kv :: _ => Ok (snd kv)
               end ;;
       let parsed_product := <["size" := size]> parsed_product in
       price <- py_get item "display_price" ;;
       let parsed_product := <["price" := price]> parsed_product in
       record <- Item parsed_product ;;
       variants_loop parsed_product rest (results ++ [record])%list)%O
  end.

(** Lines 55-75: the records of one fetched product page are appended to
    [results]. *)
Definition parse_product (product : Tag) (l : option string)
  (results : list R) : outcome (list R) :=
  (let parsed_product : gmap string value := ∅ in
   let parsed_product := <["link" := py_of_option l]> parsed_product in
   title <- not_none (find product product_title_query) ;;
   let parsed_product := <["name" := PStr (get_text title)]> parsed_product in
   if bool_decide (is_Some (find product variations_form_query)) then
     form <- not_none (find product variations_form_query) ;;
     data_json <- json_loads (tag_get form "data-product_variations") ;;
     items <- py_iter data_json ;;
     variants_loop parsed_product items results
   else
     script <- not_none (find product ld_json_query) ;;
     data_json <- json_loads (Some (get_text script)) ;;
     offers <- py_get data_json "offers" ;;
     offer <- py_index0 offers ;;
     price <- py_get offer "price" ;;
     let parsed_product := <["price" := price]> parsed_product in
     description <- py_get data_json "description" ;;
     let parsed_product := <["description" := description]> parsed_product in
     record <- Item parsed_product ;;
     Ok (results ++ [record])%list)%O.

(** ** The category traversal (lines 29-87) *)

Definition product_anchor_query : query :=
  Query "h3" [] (Some (MStr "product-title")).

Definition anchor_query : query := Query "a" [] None.

Definition page_numbers_query : query :=
  Query "ul" [] (Some (MStr "page-numbers")).

Definition next_query : query := Query "a" [] (Some (MStr "next")).

(** Line 49. *)
Definition product_links (page : Tag) : outcome (list (option string)) :=
  omapM (fun item =>
           (a <- not_none (find item anchor_query) ;;
            Ok (tag_get a "href"))%O)
        (find_all page product_anchor_query).

(** Lines 52-75: the body of the loop over the links. *)
Definition scrape_product (s : Session) (delay : option Z)
  (l : option string) (results : list R) : M (list R) :=
  (time_sleep delay ;;
   product <- session_get s ProductFetch l ;;
   let product := BeautifulSoup (text product) in
   lift (parse_product product l results))%M.

(** Lines 51-75: [for l in ...]. *)
Fixpoint for_links (s : Session) (delay : option Z)
  (links : list (option string)) (results : list R) : M (list R) :=
  match links with
  | [] => ret results
  | l :: rest =>
      (results <- scrape_product s delay l results ;;
       for_links s delay rest results)%M
  end.

(** Lines 49-75: what is done with a fetched listing page. *)
Definition scrape_listing (s : Session) (delay : option Z) (page : Tag)
  : M (list R) :=
  (links <- lift (product_links page) ;;
   let results := [] in
   for_links s delay (firstn 3 links) results)%M.

(** Lines 29-87.  [fuel] is the depth of recursion left; Python raises
    RecursionError when it is exhausted. *)
Fixpoint scrape_category (fuel : nat) (link : option string)
  (category : string) (s : Session) (delay : option Z) : M (list R) :=
  match fuel with
  | O => raise RecursionError
  | S fuel' =>
      (time_sleep delay ;;
       page <- session_get s ListingFetch link ;;
       let page := BeautifulSoup (text page) in
       results <- scrape_listing s delay page ;;
       try_except_AttributeError
         (ul <- lift (not_none (find page page_numbers_query)) ;;
          let next_page := find ul next_query in
          match next_page with
          | Some a =>
              let next_page := tag_get a "href" in
              next_results <- scrape_category fuel' next_page category
                                s delay ;;
              ret (results ++ next_results)%list
          | None => ret results
          end)
         (ret results))%M
  end.

End Parser.

(** ** The run (lines 112-152) *)

Definition root_url : string := "https://www.themarketfoodshop.com/".

(** Lines 115-121: the session and its headers. *)
Definition session_headers : gmap string string :=
  <["From" := "koibegbulam@nigerianstat.gov.ng"]>
    (<["User-Agent" := "Webscraping Capacity Building 1.0"]> ∅).

Definition the_session : Session := {| headers := session_headers |}.

(** The default of the parameter [delay] of [scrape_category] (line 34). *)
Definition default_delay : option Z := Some 1.

Definition sub_menu_query : query :=
  Query "div" [] (Some (MStr "sub-menu-dropdown")).

(** Lines 131-138: the (name, link) pairs of the categories. *)
Definition link_list (page : Tag) : list (string * option string) :=
  flat_map (fun div =>
              map (fun l => (get_text l, tag_get l "href"))
                  (find_all div anchor_query))
           (find_all page sub_menu_query).

(** Lines 143-152. *)
Fixpoint for_categories (fuel : nat) (delay : option Z)
  (cats : list (string * option string))
  (data_list : list (Product.t pyfloat)) : M (list (Product.t pyfloat)) :=
  match cats with
  | [] => ret data_list
  | cat :: rest =>
      (results <- scrape_category Themarket fuel (snd cat) (fst cat)
                    the_session delay ;;
       for_categories fuel delay rest (data_list ++ results)%list)%M
  end.

(** Lines 124-152, from the parsed robots.txt to the list of records. *)
Definition main (fuel : nat) (robots_tfms : RobotFileParser)
  : M (list (Product.t pyfloat)) :=
  (let delay := crawl_delay robots_tfms (headers the_session !! "User-Agent") in
   homepage <- session_get the_session HomeFetch (Some root_url) ;;
   let page := BeautifulSoup (text homepage) in
   let data_list := [] in
   for_categories fuel delay (link_list page) data_list)%M.

End Script.

(** ** Reading the log, and the shape of a paginated category *)

Definition call_site_eqb (c1 c2 : call_site) : bool :=
  match c1, c2 with
  | ListingFetch, ListingFetch => true
  | ProductFetch, ProductFetch => true
  | HomeFetch, HomeFetch => true
  | GateFetch, GateFetch => true
  | _, _ => false
  end.

(** The URLs passed to [s.get] at call site [c], in order. *)
Definition fetched (c : call_site) (h : list event) : list (option string) :=
  flat_map (fun e =>
              match e with
              | Get c' u => if call_site_eqb c c' then [u] else []
              | Sleep _ => []
              end) h.

(** The durations passed to [time.sleep], in order. *)
Definition slept (h : list event) : list (option Z) :=
  flat_map (fun e => match e with Sleep d => [d] | Get _ _ => [] end) h.

(** [safe_get] returned the None that stands for a forbidden link. *)
Definition denied {A} (r : outcome (option A)) : bool :=
  match r with
  | Ok None => true
  | _ => false
  end.

(** Two records that may differ in [size] and [price] only. *)
Definition same_but_size_price {F} (r1 r2 : Product.t F) : Prop :=
  Product.link r1 = Product.link r2 /\
  Product.source r1 = Product.source r2 /\
  Product.category r1 = Product.category r2 /\
  Product.subcategory r1 = Product.subcategory r2 /\
  Product.subsubcategory r1 = Product.subsubcategory r2 /\
  Product.name r1 = Product.name r2 /\
  Product.brand r1 = Product.brand r2 /\
  Product.uid r1 = Product.uid r2 /\
  Product.regular_price r1 = Product.regular_price r2 /\
  Product.currency r1 = Product.currency r2 /\
  Product.in_stock r1 = Product.in_stock r2 /\
  Product.description r1 = Product.description r2 /\
  Product.date r1 = Product.date r2.

Section Shapes.

Context `{Externals}.

Local Abbreviation value := (pyval pyfloat).

(** [v] is the value of the first attribute of the entry [item], in the
    order of the payload, whose key starts with "attri". *)
Definition selected_attribute (item v : value) : Prop :=
  exists d attrs before k after,
    item = PDict d /\
    dict_lookup d "attributes" = Some (PDict attrs) /\
    attrs = (before ++ (k, v) :: after)%list /\
    String.prefix "attri" k = true /\
    Forall (fun kv => String.prefix "attri" (fst kv) = false) before.

(** The record [Themarket] builds for one entry of the variants payload of
    the product at [l] titled [title]: its size is the selected attribute,
    its price is the entry's display price. *)
Definition variant_record (l : option string) (title : string)
  (item : value) (r : Product.t pyfloat) : Prop :=
  exists v p ln sz pr,
    selected_attribute item v /\
    py_get item "display_price" = Ok p /\
    required str_validator (Some (py_of_option l)) = Ok ln /\
    optional str_validator (Some v) = Ok sz /\
    required float_validator (Some p) = Ok pr /\
    r = Product.mk ln "The Market Food Shop" None None None (Some title)
          None sz None pr None "NGN" None None today.

(** The record [Themarket] builds for a product without variants from the
    decoded structured-data payload [data_json]. *)
Definition simple_record (l : option string) (title : string)
  (data_json : value) (r : Product.t pyfloat) : Prop :=
  exists offers offer price description ln pr ds,
    py_get data_json "offers" = Ok offers /\
    py_index0 offers = Ok offer /\
    py_get offer "price" = Ok price /\
    py_get data_json "description" = Ok description /\
    required str_validator (Some (py_of_option l)) = Ok ln /\
    required float_validator (Some price) = Ok pr /\
    optional str_validator (Some description) = Ok ds /\
    r = Product.mk ln "The Market Food Shop" None None None (Some title)
          None None None pr None "NGN" None ds today.

(** The server answers [url] with the listing page [page], whatever was
    requested before. *)
Definition serves (s : Session) (url : string) (page : Tag) : Prop :=
  forall hist, exists body,
    http (headers s) hist url = Some body /\ BeautifulSoup body = page.

(** The pagination widget is missing, or it has no next control. *)
Definition no_next (page : Tag) : Prop :=
  find page page_numbers_query = None \/
  exists ul, find page page_numbers_query = Some ul /\ find ul next_query = None.

(** The next control of the page points to [url]. *)
Definition next_is (page : Tag) (url : string) : Prop :=
  exists ul a,
    find page page_numbers_query = Some ul /\
    find ul next_query = Some a /\
    tag_get a "href" = Some url.

(** A chain of listing pages: every page is served, its products parse to
    the given records, every page but the last points to the following
    one, and the last has no next control. *)
Inductive page_chain {R : Type} (Item : gmap string value -> outcome R)
  (s : Session) (delay : option Z) : list string -> list (list R) -> Prop :=
| chain_last url page results :
    serves s url page ->
    (forall h, fst (scrape_listing Item s delay page h) = Ok results) ->
    no_next page ->
    page_chain Item s delay [url] [results]
| chain_next url page results url' urls rest :
    serves s url page ->
    (forall h, fst (scrape_listing Item s delay page h) = Ok results) ->
    next_is page url' ->
    page_chain Item s delay (url' :: urls) rest ->
    page_chain Item s delay (url :: url' :: urls) (results :: rest).

(** Lines 78-85, once the listing page is parsed and its records are
    known: the pagination block of [scrape_category], named for the proofs
    (see [scrape_category_S]). *)
Definition follow_pagination {R : Type} (Item : gmap string value -> outcome R)
  (fuel : nat) (category : string) (s : Session)
  (delay : option Z) (page : Tag) (results : list R) : M (list R) :=
  try_except_AttributeError
    (ul <- lift (not_none (find page page_numbers_query)) ;;
     match find ul next_query with
     | Some a =>
         next_results <- scrape_category Item fuel (tag_get a "href")
                           category s delay ;;
         ret (results ++ next_results)%list
     | None => ret results
     end)%M
    (ret results).

(** The fields of [Product] that the traversal never fills. *)
Definition other_fields : list string :=
  ["source"; "category"; "subcategory"; "subsubcategory"; "brand"; "uid";
   "regular_price"; "currency"; "in_stock"; "date"].

(** What the dictionary [parsed_product] holds under the keys that name a
    field of [Product]. *)
Definition kw_fields (kw : gmap string value) (link : value) (title : string)
  (size price description : option value) : Prop :=
  kw !! "link" = Some link /\
  kw !! "name" = Some (PStr title) /\
  kw !! "size" = size /\
  kw !! "price" = price /\
  kw !! "description" = description /\
  Forall (fun k => kw !! k = None) other_fields.

End Shapes.

(** ** A small shop, for running the script *)

Module Shop.

Definition el (name : string) (cls : list string)
  (attrs : list (string * string)) (contents : list Tag) : Tag :=
  Element name (list_to_map attrs)
          (match cls with [] => None | _ => Some cls end) contents.

Definition product_anchor (href : string) : Tag :=
  el "h3" ["product-title"] [] [el "a" [] [("href", href)] [NavigableString "item"]].

Definition url_rice1 : string := "https://shop.test/rice/".
Definition url_rice2 : string := "https://shop.test/rice/page/2/".
Definition url_beans1 : string := "https://shop.test/beans/".
Definition url_beans2 : string := "https://shop.test/beans/page/2/".
Definition url_p1 : string := "https://shop.test/p/rice-5kg/".
Definition url_p2 : string := "https://shop.test/p/garri/".
Definition url_p3 : string := "https://shop.test/p/beans-1kg/".
Definition url_p4 : string := "https://shop.test/p/yam/".
Definition url_p5 : string := "https://shop.test/p/untitled/".

(** Four products and a next link. *)
Definition rice1 : Tag :=
  el "[document]" [] []
    [product_anchor url_p1; product_anchor url_p2; product_anchor url_p3;
     product_anchor url_p4;
     el "ul" ["page-numbers"] []
       [el "a" ["next"; "page-numbers"] [("href", url_rice2)] []]].

(** One product, whose page has no title; the widget has no next link. *)
Definition rice2 : Tag :=
  el "[document]" [] []
    [product_anchor url_p5;
     el "ul" ["page-numbers"] []
       [el "a" ["prev"; "page-numbers"] [("href", url_rice1)] []]].

Definition beans1 : Tag :=
  el "[document]" [] []
    [product_anchor url_p1;
     el "ul" ["page-numbers"] []
       [el "a" ["next"; "page-numbers"] [("href", url_beans2)] []]].

(** No pagination widget at all. *)
Definition beans2 : Tag :=
  el "[document]" [] [] [product_anchor url_p3].

Definition home : Tag :=
  el "[document]" [] []
    [el "div" ["sub-menu-dropdown"] []
       [el "a" [] [("href", url_rice1)] [NavigableString "Rice"];
        el "a" [] [("href", url_beans1)] [NavigableString "Beans"]]].

Definition ld_script (doc : string) : Tag :=
  el "script" [] [("type", "application/ld+json")] [NavigableString doc].

(** A product without variants: the decoy block comes first. *)
Definition p1 : Tag :=
  el "[document]" [] []
    [el "script" ["yoast-schema-graph"] [("type", "application/ld+json")]
       [NavigableString "graph"];
     el "h1" ["product_title"; "entry-title"] [] [NavigableString "Rice 5kg"];
     ld_script "ld:rice"].

Definition p2_form : Tag :=
  el "form" ["variations_form"; "cart"]
    [("data-product_variations", "variations:garri")] [].

(** A product with two variants. *)
Definition p2 : Tag :=
  el "[document]" [] []
    [el "h1" ["product_title"] [] [NavigableString "Garri"];
     p2_form;
     ld_script "ld:rice"].

(** A product without variants whose payload has no description. *)
Definition p3 : Tag :=
  el "[document]" [] []
    [el "h1" ["product_title"] [] [NavigableString "Beans 1kg"];
     el "script" [] [("type", "application/ld+json")]
       [NavigableString "ld:beans"]].

(** A product page without the title heading. *)
Definition p5 : Tag :=
  el "[document]" [] []
    [el "script" [] [("type", "application/ld+json")]
       [NavigableString "ld:rice"]].

Definition pages : list (string * Tag) :=
  [("https://www.themarketfoodshop.com/", home);
   (url_rice1, rice1); (url_rice2, rice2);
   (url_beans1, beans1); (url_beans2, beans2);
   (url_p1, p1); (url_p2, p2); (url_p3, p3); (url_p4, p1); (url_p5, p5)].

Fixpoint assoc {A} (l : list (string * A)) (key : string) : option A :=
  match l with
  | [] => None
  | (k, a) :: l' => if String.eqb k key then Some a else assoc l' key
  end.

(** The documents the pages embed, decoded. Prices are whole numbers, so
    floats are integers here. *)
Definition documents : list (string * pyval Z) :=
  [("ld:rice",
    PDict [("name", PStr "Rice 5kg");
           ("description", PStr "Long grain rice");
           ("offers", PList [PDict [("price", PInt 500)];
                             PDict [("price", PInt 900)]])]);
   ("ld:beans",
    PDict [("name", PStr "Beans 1kg");
           ("offers", PList [PDict [("price", PInt 700)]])]);
   ("variations:garri",
    PList [PDict [("attributes",
                   PDict [("pa_brand", PStr "Ijebu");
                          ("attribute_pa_size", PStr "1kg");
                          ("attribute_pa_colour", PStr "white")]);
                  ("display_price", PInt 300)];
           PDict [("attributes",
                   PDict [("attribute_pa_size", PStr "2kg")]);
                  ("display_price", PInt 550)]])].

(** The body of a page is its URL; the parser maps it back to the page.
    No page of the shop gives a price as a string or a size as a number, so
    the conversions between strings and numbers are left trivial. *)
#[local] Instance world : Externals := {|
  pyfloat := Z;
  float_of_int := fun z => z;
  float_of_str := fun _ => None;
  str_of_int := fun _ => "";
  str_of_float := fun _ => "";
  BeautifulSoup := fun body => default (el "[document]" [] [] []) (assoc pages body);
  json_decode := assoc documents;
  today := "2023-05-15";
  http := fun _ _ url => match assoc pages url with Some _ => Some url | None => None end
|}.

(** A policy that forbids the product pages, and declares no delay. *)
Definition robots_no_products : RobotFileParser :=
  {| can_fetch := fun _ url => negb (String.prefix "https://shop.test/p/" url);
     crawl_delay := fun _ => None |}.

(** A policy that allows everything with a delay of two seconds. *)
Definition robots_open : RobotFileParser :=
  {| can_fetch := fun _ _ => true;
     crawl_delay := fun _ => Some 2 |}.

(** The records the shop should yield. *)
Definition record (link name : string) (size : option string) (price : Z)
  (description : option string) : Product.t Z :=
  Product.mk link "The Market Food Shop" None None None (Some name) None
    size None price None "NGN" None description "2023-05-15".

Definition rice_5kg : Product.t Z :=
  record url_p1 "Rice 5kg" None 500 (Some "Long grain rice").

Definition garri_1kg : Product.t Z :=
  record url_p2 "Garri" (Some "1kg") 300 None.

Definition garri_2kg : Product.t Z :=
  record url_p2 "Garri" (Some "2kg") 550 None.

Definition beans_1kg : Product.t Z :=
  record url_p3 "Beans 1kg" None 700 None.

End Shop.


(** ** More readings of the log and of the records *)

(** The two exceptions [time.sleep] raises on a delay it rejects. *)
Definition delay_rejected {A} (r : outcome A) : bool :=
  match r with
  | Raise TypeError => true
  | Raise ValueError => true
  | _ => false
  end.

(** A log in which every request comes right after a wait of [delay]. *)
Definition waits_then_gets (delay : option Z)
  (reqs : list (call_site * option string)) : list event :=
  flat_map (fun r => [Sleep delay; Get (fst r) (snd r)]) reqs.

(** The log is made of waits of [delay], each followed by one request
    issued at one of the call sites [sites]; when [cut] holds it may end
    with a wait that no request follows. *)
Definition paced (delay : option Z) (sites : list call_site) (cut : bool)
  (ev : list event) : Prop :=
  exists reqs,
    Forall (fun r => In (fst r) sites) reqs /\
    (ev = waits_then_gets delay reqs \/
     (cut = true /\ ev = (waits_then_gets delay reqs ++ [Sleep delay])%list)).

(** Line 154: [prod.dict(exclude_none=True)]. The fields in the order of
    their declaration, with their values; the fields that hold None are
    left out of the dictionary. *)
Definition fields {F} (r : Product.t F) : list (string * option (pyval F)) :=
  [("link", Some (PStr (Product.link r)));
   ("source", Some (PStr (Product.source r)));
   ("category", PStr <$> Product.category r);
   ("subcategory", PStr <$> Product.subcategory r);
   ("subsubcategory", PStr <$> Product.subsubcategory r);
   ("name", PStr <$> Product.name r);
   ("brand", PStr <$> Product.brand r);
   ("size", PStr <$> Product.size r);
   ("uid", PStr <$> Product.uid r);
   ("price", Some (PFloat (Product.price r)));
   ("regular_price", PFloat <$> Product.regular_price r);
   ("currency", Some (PStr (Product.currency r)));
   ("in_stock", PStr <$> Product.in_stock r);
   ("description", PStr <$> Product.description r);
   ("date", Some (PStr (Product.date r)))].

Definition dict_exclude_none {F} (r : Product.t F)
  : list (string * pyval F) :=
  flat_map (fun kv => match snd kv with
                      | Some v => [(fst kv, v)]
                      | None => []
                      end) (fields r).

(** The keyword arguments that a dictionary passes with the double star. *)
Definition kwargs {F} (d : list (string * pyval F)) : gmap string (pyval F) :=
  list_to_map d.

(** What [Themarket] leaves to its defaults when it is called by the
    traversal. *)
Definition traversal_defaults `{Externals} (r : Product.t pyfloat) : Prop :=
  Product.source r = "The Market Food Shop" /\
  Product.currency r = "NGN" /\
  Product.date r = today /\
  Product.category r = None /\
  Product.subcategory r = None /\
  Product.subsubcategory r = None /\
  Product.brand r = None /\
  Product.uid r = None /\
  Product.regular_price r = None /\
  Product.in_stock r = None /\
  is_Some (Product.name r).

(** The columns of the row of a record that has, or not, a size and a
    description. *)
Definition columns (size description : bool) : list string :=
  (["link"; "source"; "name"] ++ (if size then ["size"] else [])
   ++ ["price"; "currency"] ++ (if description then ["description"] else [])
   ++ ["date"])%list.

(** ** A shop with odd pages *)

Module Edge.

Definition url_loop : string := "https://odd.test/loop/".
Definition url_nohref : string := "https://odd.test/nohref/".
Definition url_sold_out : string := "https://odd.test/p/sold-out/".

(** A listing page without products whose next link points to itself. *)
Definition loop : Tag :=
  Shop.el "[document]" [] []
    [Shop.el "ul" ["page-numbers"] []
       [Shop.el "a" ["next"] [("href", url_loop)] []]].

(** A listing page whose next control has no target. *)
Definition nohref : Tag :=
  Shop.el "[document]" [] []
    [Shop.el "ul" ["page-numbers"] [] [Shop.el "a" ["next"] [] []]].

Definition sold_out_form : Tag :=
  Shop.el "form" ["variations_form"]
    [("data-product_variations", "variations:none")] [].

(** A product whose variations form lists no variant. *)
Definition sold_out : Tag :=
  Shop.el "[document]" [] []
    [Shop.el "h1" ["product_title"] [] [NavigableString "Sold out"];
     sold_out_form].

Definition pages : list (string * Tag) :=
  [(url_loop, loop); (url_nohref, nohref); (url_sold_out, sold_out)].

Definition documents : list (string * pyval Z) :=
  [("variations:none", PList [])].

#[local] Instance world : Externals := {|
  pyfloat := Z;
  float_of_int := fun z => z;
  float_of_str := fun _ => None;
  str_of_int := fun _ => "";
  str_of_float := fun _ => "";
  BeautifulSoup := fun body =>
    default (Shop.el "[document]" [] [] []) (Shop.assoc pages body);
  json_decode := Shop.assoc documents;
  today := "2023-05-15";
  http := fun _ _ url =>
    match Shop.assoc pages url with Some _ => Some url | None => None end
|}.

End Edge.

(** * Properties *)

Section Properties.

Context `{Externals}.

Local Abbreviation value := (pyval pyfloat).

(** ** The log only grows *)

Ltac log_eq := simpl; rewrite <- ?app_assoc, ?app_nil_r; reflexivity.

Lemma fetched_app c (h1 h2 : list event) :
  fetched c (h1 ++ h2) = (fetched c h1 ++ fetched c h2)%list.
Proof. unfold fetched. apply flat_map_app. Qed.

Lemma slept_app (h1 h2 : list event) :
  slept (h1 ++ h2) = (slept h1 ++ slept h2)%list.
Proof. unfold slept. apply flat_map_app. Qed.

Lemma time_sleep_log d h : snd (time_sleep d h) = (h ++ [Sleep d])%list.
Proof.
  unfold time_sleep. destruct d as [z|]; [destruct (z <? 0)|]; reflexivity.
Qed.

Lemma time_sleep_ok z h :
  0 <= z -> time_sleep (Some z) h = (Ok tt, (h ++ [Sleep (Some z)])%list).
Proof.
  intros Hz. unfold time_sleep.
  destruct (Z.ltb_spec z 0) as [Hlt|_]; [lia | reflexivity].
Qed.

Lemma session_get_log s c u h :
  snd (session_get s c u h) = (h ++ [Get c u])%list.
Proof.
  unfold session_get. destruct u as [u|]; [|reflexivity].
  destruct (http _ _ u); reflexivity.
Qed.

Lemma session_get_served s c url page h :
  serves s url page ->
  exists body,
    session_get s c (Some url) h
    = (Ok {| text := body |}, (h ++ [Get c (Some url)])%list)
    /\ BeautifulSoup body = page.
Proof.
  intros Hs. destruct (Hs (requested h)) as (body & Hb & Hp).
  exists body. split; [|exact Hp]. unfold session_get. rewrite Hb. reflexivity.
Qed.

Section Logs.

Context {R : Type} (Item : gmap string value -> outcome R).

(** One pass of the loop body sleeps once and fetches at most its link. *)
Lemma scrape_product_log s delay l results h :
  exists ev,
    snd (scrape_product Item s delay l results h) = (h ++ ev)%list /\
    fetched ListingFetch ev = [] /\
    fetched ProductFetch ev `prefix_of` [l] /\
    (forall rs, fst (scrape_product Item s delay l results h) = Ok rs ->
                fetched ProductFetch ev = [l]).
Proof.
  unfold scrape_product, bind, lift.
  pose proof (time_sleep_log delay h) as Hs.
  destruct (time_sleep delay h) as [[[]|e] h1]; simpl in Hs; subst h1.
  - pose proof (session_get_log s ProductFetch l (h ++ [Sleep delay])) as Hg.
    destruct (session_get s ProductFetch l (h ++ [Sleep delay])%list)
      as [[resp|e] h2]; simpl in Hg; subst h2;
      exists [Sleep delay; Get ProductFetch l]; simpl;
      rewrite <- app_assoc; repeat split; auto; try discriminate.
  - exists [Sleep delay]. simpl. repeat split; auto.
    + exists [l]. reflexivity.
    + discriminate.
Qed.

(** The loop fetches a prefix of its links, all of them when it succeeds,
    and no listing page. *)
Lemma for_links_log s delay links : forall results h,
  exists ev,
    snd (for_links Item s delay links results h) = (h ++ ev)%list /\
    fetched ListingFetch ev = [] /\
    fetched ProductFetch ev `prefix_of` links /\
    (forall rs, fst (for_links Item s delay links results h) = Ok rs ->
                fetched ProductFetch ev = links).
Proof.
  induction links as [|l rest IH]; intros results h.
  - exists []. simpl. rewrite app_nil_r. repeat split; auto.
  - simpl. unfold bind.
    destruct (scrape_product_log s delay l results h)
      as (ev1 & Hlog1 & Hl1 & Hp1 & Hok1).
    destruct (scrape_product Item s delay l results h) as [[rs1|e] h1];
      simpl in Hlog1; subst h1.
    + destruct (IH rs1 (h ++ ev1)%list) as (ev2 & Hlog2 & Hl2 & Hp2 & Hok2).
      exists (ev1 ++ ev2)%list. rewrite app_assoc, !fetched_app.
      rewrite Hl1, Hl2, (Hok1 rs1 eq_refl). repeat split; auto.
      * destruct Hp2 as [k Hk]. exists k. simpl. rewrite Hk. reflexivity.
      * intros rs Hrs. rewrite (Hok2 rs Hrs). reflexivity.
    + exists ev1. repeat split; auto.
      * destruct Hp1 as [k Hk]. destruct (fetched ProductFetch ev1) as [|x xs].
        -- exists (l :: rest). reflexivity.
        -- simpl in Hk. injection Hk as -> Hk.
           destruct xs; [|discriminate]. exists rest. reflexivity.
      * simpl. discriminate.
Qed.

Lemma scrape_listing_log s delay page h :
  exists ev,
    snd (scrape_listing Item s delay page h) = (h ++ ev)%list /\
    fetched ListingFetch ev = [] /\
    match product_links page with
    | Ok links =>
        fetched ProductFetch ev `prefix_of` firstn 3 links /\
        (forall rs, fst (scrape_listing Item s delay page h) = Ok rs ->
                    fetched ProductFetch ev = firstn 3 links)
    | Raise _ => ev = []
    end.
Proof.
  unfold scrape_listing, bind, lift.
  destruct (product_links page) as [links|e].
  - destruct (for_links_log s delay (firstn 3 links) [] h)
      as (ev & Hlog & Hl & Hp & Hok).
    exists ev. repeat split; auto.
  - exists []. simpl. rewrite app_nil_r. repeat split; auto.
Qed.

End Logs.

(** ** The per-page cap *)

(** C4. Whatever the listing page holds, the product pages fetched for it
    are the first of its first three extracted links, in order: at most
    three, a prefix of these three when a failure interrupts the loop, and
    exactly these when the page is processed to the end. *)
Theorem C4_at_most_first_three_links {R : Type}
  (Item : gmap string value -> outcome R) (s : Session) (delay : option Z)
  (page : Tag) (h : list event) :
  exists ev,
    snd (scrape_listing Item s delay page h) = (h ++ ev)%list /\
    (length (fetched ProductFetch ev) <= 3)%nat /\
    match product_links page with
    | Ok links =>
        fetched ProductFetch ev `prefix_of` firstn 3 links /\
        match fst (scrape_listing Item s delay page h) with
        | Ok _ => fetched ProductFetch ev = firstn 3 links
        | Raise _ => True
        end
    | Raise _ => fetched ProductFetch ev = []
    end.
Proof.
  destruct (scrape_listing_log Item s delay page h) as (ev & Hlog & _ & Hm).
  exists ev. split; [exact Hlog|].
  destruct (product_links page) as [links|e].
  - destruct Hm as [Hp Hok]. split; [|split; [exact Hp|]].
    + destruct Hp as [k Hk].
      assert (Hlen : (length (firstn 3 links) <= 3)%nat)
        by (rewrite length_firstn; lia).
      rewrite Hk, length_app in Hlen. lia.
    + destruct (fst (scrape_listing Item s delay page h)) as [rs|e] eqn:E;
        [apply (Hok rs); reflexivity | exact I].
  - subst ev. split; [simpl; lia | reflexivity].
Qed.

(** ** The fetch gate *)

(** C8. [safe_get] issues the session's GET and returns its response when
    the policy allows the session's User-Agent to fetch the link, and
    otherwise returns None without any request; whether it is denied is the
    same after any log of earlier calls. *)
Theorem C8_safe_get_follows_policy (s : Session) (robots : RobotFileParser)
  (link : string) (h : list event) :
  safe_get s robots link h
  = (if can_fetch robots (headers s !! "User-Agent") link
     then (omap Some (fst (session_get s GateFetch (Some link) h)),
           (h ++ [Get GateFetch (Some link)])%list)
     else (Ok None, h)) /\
  denied (fst (safe_get s robots link h))
  = negb (can_fetch robots (headers s !! "User-Agent") link) /\
  forall h' : list event,
    denied (fst (safe_get s robots link h'))
    = denied (fst (safe_get s robots link h)).
Proof.
  assert (Hd : forall h0,
             denied (fst (safe_get s robots link h0))
             = negb (can_fetch robots (headers s !! "User-Agent") link)).
  { intros h0. unfold safe_get.
    destruct (can_fetch robots (headers s !! "User-Agent") link);
      [|reflexivity].
    unfold bind. destruct (session_get s GateFetch (Some link) h0)
      as [[resp|e] h1]; reflexivity. }
  split; [|split; [apply Hd | intros h'; rewrite !Hd; reflexivity]].
  unfold safe_get.
  destruct (can_fetch robots (headers s !! "User-Agent") link);
    [|reflexivity].
  unfold bind. pose proof (session_get_log s GateFetch (Some link) h) as Hg.
  destruct (session_get s GateFetch (Some link) h) as [[resp|e] h1];
    simpl in Hg; subst h1; reflexivity.
Qed.

(** ** The delay *)

Lemma scrape_category_sleep_None {R : Type}
  (Item : gmap string value -> outcome R) fuel link category s h :
  scrape_category Item (S fuel) link category s None h
  = (Raise TypeError, (h ++ [Sleep None])%list).
Proof. reflexivity. Qed.

(** C9. When the policy declares no crawl delay, the run hands None (not
    the default of one second) to [scrape_category] for the first
    category, whose first step calls the wait with None; in Python that
    call raises a TypeError, so the log ends there. *)
Theorem C9_missing_delay_is_passed_as_None (robots : RobotFileParser)
  (fuel : nat) (h : list event) (body : string)
  (Hdelay : crawl_delay robots (headers the_session !! "User-Agent") = None)
  (Hhome : http session_headers (requested h) root_url = Some body)
  (Hcats : link_list (BeautifulSoup body) <> []) :
  main (S fuel) robots h
  = (Raise TypeError,
     (h ++ [Get HomeFetch (Some root_url); Sleep None])%list) /\
  slept (snd (main (S fuel) robots h)) = (slept h ++ [None])%list /\
  None <> default_delay.
Proof.
  assert (Hmain : main (S fuel) robots h
                  = (Raise TypeError,
                     (h ++ [Get HomeFetch (Some root_url); Sleep None])%list)).
  { unfold main, bind. rewrite Hdelay. unfold session_get.
    change (headers the_session) with session_headers. rewrite Hhome.
    cbn [text].
    destruct (link_list (BeautifulSoup body)) as [|cat rest];
      [contradiction|].
    cbn [for_categories]. unfold bind.
    rewrite scrape_category_sleep_None, <- app_assoc. reflexivity. }
  split; [exact Hmain|]. split; [|discriminate].
  rewrite Hmain. cbn [snd]. rewrite slept_app. reflexivity.
Qed.

(** ** Pagination *)

Section Pagination.

Context {R : Type} (Item : gmap string value -> outcome R).

Lemma scrape_category_S fuel link category s delay :
  scrape_category Item (S fuel) link category s delay
  = (time_sleep delay ;;
     page <- session_get s ListingFetch link ;;
     results <- scrape_listing Item s delay (BeautifulSoup (text page)) ;;
     follow_pagination Item fuel category s delay (BeautifulSoup (text page))
       results)%M.
Proof. reflexivity. Qed.

(** On a listing page that is served and whose products parse, the steps
    before the pagination block fetch this one listing page and hand the
    records over. *)
Lemma scrape_category_served fuel url page results category s d h :
  0 <= d ->
  serves s url page ->
  (forall h0, fst (scrape_listing Item s (Some d) page h0) = Ok results) ->
  exists ev,
    fetched ListingFetch ev = [Some url] /\
    scrape_category Item (S fuel) (Some url) category s (Some d) h
    = follow_pagination Item fuel category s (Some d) page results (h ++ ev)%list.
Proof.
  intros Hd Hs Hl.
  destruct (session_get_served s ListingFetch url page
              (h ++ [Sleep (Some d)])%list Hs) as (body & Hget & Hpage).
  destruct (scrape_listing_log Item s (Some d) page
              ((h ++ [Sleep (Some d)]) ++ [Get ListingFetch (Some url)])%list)
    as (ev1 & Hlog & Hnl & _).
  specialize (Hl ((h ++ [Sleep (Some d)]) ++ [Get ListingFetch (Some url)])%list).
  exists ([Sleep (Some d); Get ListingFetch (Some url)] ++ ev1)%list.
  split.
  - rewrite fetched_app, Hnl. reflexivity.
  - rewrite scrape_category_S.
    unfold bind at 1. rewrite (time_sleep_ok d h Hd).
    unfold bind at 1. rewrite Hget. cbn [text]. rewrite Hpage.
    unfold bind at 1.
    destruct (scrape_listing Item s (Some d) page
                ((h ++ [Sleep (Some d)]) ++ [Get ListingFetch (Some url)])%list)
      as [r h1]. simpl in Hlog, Hl. subst r h1.
    f_equal. rewrite <- !app_assoc. reflexivity.
Qed.

Lemma follow_pagination_no_next fuel category s delay page results h :
  no_next page ->
  follow_pagination Item fuel category s delay page results h = (Ok results, h).
Proof.
  intros [Hnone | (ul & Hul & Hnext)];
    unfold follow_pagination, try_except_AttributeError, bind, lift, ret.
  - rewrite Hnone. reflexivity.
  - rewrite Hul. simpl. rewrite Hnext. reflexivity.
Qed.

Lemma follow_pagination_next fuel category s delay page results url h :
  next_is page url ->
  follow_pagination Item fuel category s delay page results h
  = try_except_AttributeError
      (next_results <- scrape_category Item fuel (Some url) category s delay ;;
       ret (results ++ next_results)%list)%M
      (ret results) h.
Proof.
  intros (ul & a & Hul & Ha & Hhref).
  unfold follow_pagination, try_except_AttributeError, bind at 1, lift.
  rewrite Hul. simpl not_none. cbv beta iota. rewrite Ha, Hhref. reflexivity.
Qed.

(** An AttributeError that comes out of the recursive call is caught like
    a missing widget; any other exception goes through. *)
Lemma follow_pagination_swallows fuel category s delay page results url h h' :
  next_is page url ->
  scrape_category Item fuel (Some url) category s delay h
  = (Raise AttributeError, h') ->
  follow_pagination Item fuel category s delay page results h
  = (Ok results, h').
Proof.
  intros Hn Hrec. rewrite (follow_pagination_next _ _ _ _ _ _ _ _ Hn).
  unfold try_except_AttributeError, bind. rewrite Hrec. reflexivity.
Qed.

Lemma follow_pagination_propagates fuel category s delay page results url
  e h h' :
  next_is page url ->
  e <> AttributeError ->
  scrape_category Item fuel (Some url) category s delay h = (Raise e, h') ->
  follow_pagination Item fuel category s delay page results h
  = (Raise e, h').
Proof.
  intros Hn He Hrec. rewrite (follow_pagination_next _ _ _ _ _ _ _ _ Hn).
  unfold try_except_AttributeError, bind. rewrite Hrec.
  destruct e; try reflexivity. contradiction.
Qed.

(** Over a whole traversal, the product pages fetched are at most three
    per listing page fetched. *)
Lemma scrape_category_cap fuel : forall link category s delay h,
  exists ev,
    snd (scrape_category Item fuel link category s delay h) = (h ++ ev)%list /\
    (length (fetched ProductFetch ev)
     <= 3 * length (fetched ListingFetch ev))%nat.
Proof.
  induction fuel as [|fuel IH]; intros link category s delay h.
  - exists []. simpl. rewrite app_nil_r. split; [reflexivity | lia].
  - rewrite scrape_category_S. unfold bind at 1.
    pose proof (time_sleep_log delay h) as Hs.
    destruct (time_sleep delay h) as [[[]|e] h1]; simpl in Hs; subst h1.
    2: { exists [Sleep delay]. simpl. split; [reflexivity | lia]. }
    unfold bind at 1.
    pose proof (session_get_log s ListingFetch link (h ++ [Sleep delay]))
      as Hg.
    destruct (session_get s ListingFetch link (h ++ [Sleep delay])%list)
      as [[resp|e] h2]; simpl in Hg; subst h2.
    2: { exists [Sleep delay; Get ListingFetch link]. simpl.
         rewrite <- app_assoc. split; [reflexivity | lia]. }
    unfold bind at 1.
    destruct (scrape_listing_log Item s delay (BeautifulSoup (text resp))
                ((h ++ [Sleep delay]) ++ [Get ListingFetch link])%list)
      as (ev1 & Hlog & Hnl & Hm).
    assert (Hcap : (length (fetched ProductFetch ev1) <= 3)%nat).
    { destruct (product_links (BeautifulSoup (text resp))) as [links|e].
      - destruct Hm as [[k Hk] _].
        assert (Hlen : (length (firstn 3 links) <= 3)%nat)
          by (rewrite length_firstn; lia).
        rewrite Hk, length_app in Hlen. lia.
      - subst ev1. simpl. lia. }
    clear Hm.
    assert (Hhere : forall ev2,
               (length (fetched ProductFetch ev2)
                <= 3 * length (fetched ListingFetch ev2))%nat ->
               (length (fetched ProductFetch
                          (([Sleep delay; Get ListingFetch link] ++ ev1)
                             ++ ev2))
                <= 3 * length (fetched ListingFetch
                                 (([Sleep delay; Get ListingFetch link]
                                     ++ ev1) ++ ev2)))%nat).
    { intros ev2 H2. rewrite !fetched_app, Hnl, !length_app. simpl. lia. }
    destruct (scrape_listing Item s delay (BeautifulSoup (text resp))
                ((h ++ [Sleep delay]) ++ [Get ListingFetch link])%list)
      as [[results|e] h3]; simpl in Hlog; subst h3.
    2: { exists (([Sleep delay; Get ListingFetch link] ++ ev1) ++ [])%list.
         split; [log_eq | apply Hhere; simpl; lia]. }
    unfold follow_pagination, try_except_AttributeError, bind, lift, ret.
    destruct (not_none (find (BeautifulSoup (text resp)) page_numbers_query))
      as [ul|e].
    + destruct (find ul next_query) as [a|].
      * destruct (IH (tag_get a "href") category s delay
                    (((h ++ [Sleep delay]) ++ [Get ListingFetch link])
                       ++ ev1)%list) as (ev2 & Hlog2 & Hcap2).
        exists (([Sleep delay; Get ListingFetch link] ++ ev1) ++ ev2)%list.
        split; [|exact (Hhere ev2 Hcap2)].
        destruct (scrape_category Item fuel (tag_get a "href") category s
                    delay (((h ++ [Sleep delay]) ++ [Get ListingFetch link])
                             ++ ev1)%list) as [[next_results|e] h4];
          simpl in Hlog2; subst h4; [|destruct e]; log_eq.
      * exists (([Sleep delay; Get ListingFetch link] ++ ev1) ++ [])%list.
        split; [log_eq | apply Hhere; simpl; lia].
    + exists (([Sleep delay; Get ListingFetch link] ++ ev1) ++ [])%list.
      split; [destruct e; log_eq | apply Hhere; simpl; lia].
Qed.

End Pagination.

(** C7. On a chain of N listing pages, each but the last pointing to the
    following one and the last without a next control or without the
    widget, [scrape_category] run with a recursion depth of at least N
    fetches the N listing pages once each, in order, raises nothing, and
    returns the records of the pages in page order. *)
Theorem C7_chain_is_traversed_once {R : Type}
  (Item : gmap string value -> outcome R) (s : Session) (d : Z)
  (category : string) (url : string) (urls : list string)
  (results : list (list R))
  (Hdelay : 0 <= d)
  (Hchain : page_chain Item s (Some d) (url :: urls) results) :
  forall (fuel : nat) (h : list event),
    (length (url :: urls) <= fuel)%nat ->
    exists ev,
      scrape_category Item fuel (Some url) category s (Some d) h
      = (Ok (concat results), (h ++ ev)%list) /\
      fetched ListingFetch ev = map Some (url :: urls) /\
      length (fetched ListingFetch ev) = length (url :: urls).
Proof.
  remember (url :: urls) as chain eqn:Echain.
  revert url urls Echain.
  induction Hchain as [u page rs Hs Hl Hn | u page rs u' us rest Hs Hl Hn Hc IH];
    intros url urls Echain fuel h Hfuel; injection Echain as <- <-.
  - destruct fuel as [|fuel]; [simpl in Hfuel; lia|].
    destruct (scrape_category_served Item fuel u page rs category s d h
                Hdelay Hs Hl) as (ev & Hf & Heq).
    exists ev. rewrite Heq, Hf, (follow_pagination_no_next _ _ _ _ _ _ _ _ Hn).
    simpl concat. rewrite app_nil_r. repeat split; reflexivity.
  - destruct fuel as [|fuel]; [simpl in Hfuel; lia|].
    destruct (scrape_category_served Item fuel u page rs category s d h
                Hdelay Hs Hl) as (ev & Hf & Heq).
    destruct (IH u' us eq_refl fuel (h ++ ev)%list) as (ev2 & Hrec & Hf2 & _).
    { simpl in Hfuel |- *. lia. }
    exists (ev ++ ev2)%list.
    rewrite Heq, (follow_pagination_next _ _ _ _ _ _ _ _ _ Hn).
    unfold try_except_AttributeError, bind. rewrite Hrec.
    rewrite fetched_app, Hf, Hf2, app_assoc.
    repeat split; try reflexivity.
    simpl. rewrite length_map. reflexivity.
Qed.

(** ** Building records *)

Lemma obind_Ok {A B} (x : outcome A) (f : A -> outcome B) (b : B) :
  obind x f = Ok b <-> exists a, x = Ok a /\ f a = Ok b.
Proof.
  destruct x as [a|e]; simpl; split.
  - intros Hf. exists a. split; [reflexivity | exact Hf].
  - intros (a' & Ha & Hf). injection Ha as <-. exact Hf.
  - discriminate.
  - intros (a' & Ha & _). discriminate.
Qed.

(** The first element of a comprehension with a filter, read on the
    filtered list. *)
Lemma first_match_spec {A} (f : A -> bool) (l : list A) (x : A) :
  (exists t, List.filter f l = x :: t) <->
  exists before after,
    l = (before ++ x :: after)%list /\ f x = true /\
    Forall (fun y => f y = false) before.
Proof.
  induction l as [|y l IH]; simpl.
  - split.
    + intros (t & Ht). discriminate.
    + intros (before & after & Hl & _). destruct before; discriminate.
  - destruct (f y) eqn:Hy; split.
    + intros (t & Ht). injection Ht as -> _.
      exists [], l. repeat split; auto.
    + intros (before & after & Hl & Hx & Hb).
      destruct before as [|z before]; simpl in Hl; injection Hl as -> Hl.
      * eexists. reflexivity.
      * apply Forall_cons in Hb as [Hz _]. congruence.
    + intros Ht. apply IH in Ht as (before & after & -> & Hx & Hb).
      exists (y :: before), after. repeat split; auto.
    + intros (before & after & Hl & Hx & Hb).
      destruct before as [|z before]; simpl in Hl; injection Hl as -> Hl.
      * congruence.
      * apply IH. exists before, after. apply Forall_cons in Hb as [_ Hb].
        repeat split; auto.
Qed.

Lemma other_fields_not (key : string) :
  key = "size" \/ key = "price" \/ key = "description" ->
  Forall (fun k => k <> key) other_fields.
Proof.
  intros [-> | [-> | ->]]; unfold other_fields;
    repeat (constructor; [discriminate|]); constructor.
Qed.

Lemma others_insert (kw : gmap string value) key v :
  key = "size" \/ key = "price" \/ key = "description" ->
  Forall (fun k => kw !! k = None) other_fields ->
  Forall (fun k => <[key := v]> kw !! k = None) other_fields.
Proof.
  intros Hkey Hkw. pose proof (other_fields_not key Hkey) as Hne.
  rewrite Forall_forall in *. intros k Hk.
  rewrite lookup_insert_ne; [apply Hkw, Hk |].
  intros ->. exact (Hne k Hk eq_refl).
Qed.

Lemma kw_fields_init (l : value) (title : string) :
  kw_fields (<["name" := PStr title]> (<["link" := l]> ∅)) l title
    None None None.
Proof.
  unfold kw_fields, other_fields.
  repeat split; try reflexivity.
  repeat (constructor; [reflexivity|]). constructor.
Qed.

Lemma kw_fields_size kw l title sz pr ds v :
  kw_fields kw l title sz pr ds ->
  kw_fields (<["size" := v]> kw) l title (Some v) pr ds.
Proof.
  intros (Hl & Hn & Hs & Hp & Hd & Ho). unfold kw_fields.
  rewrite lookup_insert_eq, !lookup_insert_ne by discriminate.
  repeat split; auto. apply others_insert; auto.
Qed.

Lemma kw_fields_price kw l title sz pr ds v :
  kw_fields kw l title sz pr ds ->
  kw_fields (<["price" := v]> kw) l title sz (Some v) ds.
Proof.
  intros (Hl & Hn & Hs & Hp & Hd & Ho). unfold kw_fields.
  rewrite lookup_insert_eq, !lookup_insert_ne by discriminate.
  repeat split; auto. apply others_insert; auto.
Qed.

Lemma kw_fields_description kw l title sz pr ds v :
  kw_fields kw l title sz pr ds ->
  kw_fields (<["description" := v]> kw) l title sz pr (Some v).
Proof.
  intros (Hl & Hn & Hs & Hp & Hd & Ho). unfold kw_fields.
  rewrite lookup_insert_eq, !lookup_insert_ne by discriminate.
  repeat split; auto. apply others_insert; auto.
Qed.

(** [Themarket] on a dictionary of the traversal: the link, the size, the
    price and the description are validated, the name is the title, and the
    other fields take their defaults. *)
Lemma Themarket_Ok kw l title sz pr ds r :
  kw_fields kw l title sz (Some pr) ds ->
  Themarket kw = Ok r <->
  exists ln sz' pr' ds',
    required str_validator (Some l) = Ok ln /\
    optional str_validator sz = Ok sz' /\
    required float_validator (Some pr) = Ok pr' /\
    optional str_validator ds = Ok ds' /\
    r = Product.mk ln "The Market Food Shop" None None None (Some title)
          None sz' None pr' None "NGN" None ds' today.
Proof.
  intros (Hl & Hn & Hs & Hp & Hd & Ho).
  unfold other_fields in Ho.
  repeat match type of Ho with
         | Forall _ (_ :: _) =>
             let Hk := fresh "Hk" in apply Forall_cons in Ho as [Hk Ho]
         end.
  unfold Themarket, BaseModel_init.
  rewrite Hl, Hn, Hs, Hp, Hd, Hk, Hk0, Hk1, Hk2, Hk3, Hk4, Hk5, Hk6, Hk7, Hk8.
  cbn [defaulted optional obind omap str_validator].
  destruct (required str_validator (Some l)) as [ln|e]; cbn [obind].
  2: { split; [discriminate | intros (?&?&?&?&?&_); discriminate]. }
  destruct (optional str_validator sz) as [sz'|e]; cbn [obind].
  2: { split; [discriminate | intros (?&?&?&?&_&?&_); discriminate]. }
  destruct (required float_validator (Some pr)) as [pr'|e]; cbn [obind].
  2: { split; [discriminate | intros (?&?&?&?&_&_&?&_); discriminate]. }
  destruct (optional str_validator ds) as [ds'|e]; cbn [obind].
  2: { split; [discriminate | intros (?&?&?&?&_&_&_&?&_); discriminate]. }
  split.
  - intros Hr. injection Hr as <-. exists ln, sz', pr', ds'.
    repeat split; reflexivity.
  - intros (?&?&?&?&E1&E2&E3&E4&->).
    injection E1 as <-. injection E2 as <-. injection E3 as <-.
    injection E4 as <-. reflexivity.
Qed.

(** ** The variants loop *)

Lemma py_get_Ok (v w : value) key :
  py_get v key = Ok w <->
  exists d, v = PDict d /\ w = default PNone (dict_lookup d key).
Proof.
  destruct v; simpl; split;
    try discriminate; try (intros (d' & Hd & _); discriminate).
  - intros Hw. injection Hw as <-. eexists. split; reflexivity.
  - intros (d' & Hd & ->). injection Hd as <-. reflexivity.
Qed.

Lemma py_items_Ok (v : value) its :
  py_items v = Ok its <-> v = PDict its.
Proof.
  destruct v; simpl; split; try discriminate; intros Hv; congruence.
Qed.

Lemma default_PNone_dict (x : option value) its :
  default PNone x = PDict its <-> x = Some (PDict its).
Proof.
  destruct x as [v|]; simpl; split; try discriminate; congruence.
Qed.

(** The loop succeeds exactly when every entry yields the record described
    by [variant_record], and then appends these records, one per entry, in
    the order of the entries. *)
Lemma variants_loop_spec l title items :
  forall pp acc rs sz pr,
    kw_fields pp (py_of_option l) title sz pr None ->
    variants_loop Themarket pp items acc = Ok rs <->
    exists new,
      rs = (acc ++ new)%list /\ Forall2 (variant_record l title) items new.
Proof.
  induction items as [|item rest IH]; intros pp acc rs sz pr Hkw.
  - simpl. split.
    + intros Hrs. injection Hrs as <-. exists []. rewrite app_nil_r.
      split; [reflexivity | constructor].
    + intros (new & -> & Hall). inversion Hall. rewrite app_nil_r. reflexivity.
  - cbn [variants_loop]. split.
    + intros Hrun.
      apply obind_Ok in Hrun as (attributes & Hattr & Hrun).
      apply obind_Ok in Hrun as (its & Hits & Hrun).
      apply obind_Ok in Hrun as (size & Hsize & Hrun).
      cbv zeta in Hrun.
      apply obind_Ok in Hrun as (price & Hprice & Hrun).
      apply obind_Ok in Hrun as (record & Hrec & Hrun).
      apply py_get_Ok in Hattr as (d & -> & ->).
      apply py_items_Ok, default_PNone_dict in Hits.
      apply py_get_Ok in Hprice as (d' & Hd' & ->). injection Hd' as <-.
      destruct (List.filter (fun kv : string * value =>
                               String.prefix "attri" (fst kv)) its)
        as [|[k v] t] eqn:Hfilter; [discriminate|].
      injection Hsize as <-. simpl snd in *.
      assert (Hdec : exists t0,
                 List.filter (fun kv : string * value =>
                                String.prefix "attri" (fst kv)) its
                 = (k, v) :: t0) by (exists t; exact Hfilter).
      apply first_match_spec in Hdec as (before & after & Hits' & Hk & Hb).
      pose proof (kw_fields_price _ _ _ _ _ _
                    (default PNone (dict_lookup d "display_price"))
                    (kw_fields_size _ _ _ _ _ _ v Hkw)) as Hkw'.
      apply (Themarket_Ok _ _ _ _ _ _ record Hkw') in Hrec
        as (ln & sz' & pr' & ds' & Hln & Hsz & Hpr & Hds & ->).
      injection Hds as <-.
      apply (IH _ _ _ _ _ Hkw') in Hrun as (new & -> & Hall).
      eexists (_ :: new). rewrite <- app_assoc. split; [reflexivity|].
      constructor; [|exact Hall].
      exists v, (default PNone (dict_lookup d "display_price")), ln, sz', pr'.
      repeat split; auto.
      exists d, its, before, k, after. repeat split; auto.
    + intros (new & -> & Hall).
      inversion Hall as [|item' r rest' new' Hr Hrest]; subst.
      destruct Hr as (v & p & ln & sz' & pr'
                      & (d & its & before & k & after
                         & -> & Hits & Hits' & Hk & Hb)
                      & Hp & Hln & Hsz & Hpr & ->).
      simpl in Hp. injection Hp as <-.
      simpl py_get. rewrite Hits. simpl.
      assert (Hdec : exists t0,
                 List.filter (fun kv : string * value =>
                                String.prefix "attri" (fst kv)) its
                 = (k, v) :: t0).
      { apply first_match_spec. exists before, after. repeat split; auto. }
      destruct Hdec as (t0 & ->). simpl.
      pose proof (kw_fields_price _ _ _ _ _ _
                    (default PNone (dict_lookup d "display_price"))
                    (kw_fields_size _ _ _ _ _ _ v Hkw)) as Hkw'.
      assert (Hrec : Themarket
                       (<["price" := default PNone
                                       (dict_lookup d "display_price")]>
                          (<["size" := v]> pp))
                     = Ok (Product.mk ln "The Market Food Shop" None None None
                             (Some title) None sz' None pr' None "NGN" None
                             None today)).
      { apply (Themarket_Ok _ _ _ _ _ _ _ Hkw').
        exists ln, sz', pr', None. repeat split; auto. }
      rewrite Hrec. simpl obind.
      apply (IH _ _ _ _ _ Hkw'). exists new'. rewrite <- app_assoc.
      split; [reflexivity | exact Hrest].
Qed.

(** ** The product page *)

Lemma not_none_Ok {A} (x : option A) (a : A) : not_none x = Ok a <-> x = Some a.
Proof. destruct x; simpl; split; congruence. Qed.



(** A product page with a variations form. *)
Lemma parse_product_variants product l results form rs :
  find product variations_form_query = Some form ->
  parse_product Themarket product l results = Ok rs <->
  exists title data_json items new,
    find product product_title_query = Some title /\
    json_loads (tag_get form "data-product_variations") = Ok data_json /\
    py_iter data_json = Ok items /\
    Forall2 (variant_record l (get_text title)) items new /\
    rs = (results ++ new)%list.
Proof.
  intros Hform. unfold parse_product. rewrite Hform.
  rewrite bool_decide_eq_true_2 by (eexists; reflexivity).
  simpl not_none at 2. cbn [obind] . split.
  - intros Hrun.
    apply obind_Ok in Hrun as (title & Ht & Hrun). apply not_none_Ok in Ht.
    apply obind_Ok in Hrun as (data_json & Hdata & Hrun).
    apply obind_Ok in Hrun as (items & Hitems & Hrun).
    apply (variants_loop_spec l (get_text title) items _ _ _ None None
             (kw_fields_init _ _)) in Hrun as (new & -> & Hall).
    exists title, data_json, items, new. repeat split; auto.
  - intros (title & data_json & items & new & Ht & Hdata & Hitems & Hall & ->).
    rewrite Ht. simpl not_none. cbn [obind]. rewrite Hdata. cbn [obind].
    rewrite Hitems. cbn [obind].
    apply (variants_loop_spec l (get_text title) items _ _ _ None None
             (kw_fields_init _ _)).
    exists new. split; [reflexivity | exact Hall].
Qed.

(** A product page without one. *)
Lemma parse_product_simple product l results rs :
  find product variations_form_query = None ->
  parse_product Themarket product l results = Ok rs <->
  exists title script data_json r,
    find product product_title_query = Some title /\
    find product ld_json_query = Some script /\
    json_loads (Some (get_text script)) = Ok data_json /\
    simple_record l (get_text title) data_json r /\
    rs = (results ++ [r])%list.
Proof.
  intros Hform. unfold parse_product. rewrite Hform.
  rewrite bool_decide_eq_false_2 by (intros [x Hx]; discriminate).
  split.
  - intros Hrun.
    apply obind_Ok in Hrun as (title & Ht & Hrun). apply not_none_Ok in Ht.
    apply obind_Ok in Hrun as (script & Hscript & Hrun).
    apply not_none_Ok in Hscript.
    apply obind_Ok in Hrun as (data_json & Hdata & Hrun).
    apply obind_Ok in Hrun as (offers & Hoffers & Hrun).
    apply obind_Ok in Hrun as (offer & Hoffer & Hrun).
    apply obind_Ok in Hrun as (price & Hprice & Hrun).
    cbv zeta in Hrun.
    apply obind_Ok in Hrun as (description & Hdesc & Hrun).
    apply obind_Ok in Hrun as (record & Hrec & Hrun).
    injection Hrun as <-.
    pose proof (kw_fields_description _ _ _ _ _ _ description
                  (kw_fields_price _ _ _ _ _ _ price
                     (kw_fields_init (py_of_option l) (get_text title))))
      as Hkw.
    apply (Themarket_Ok _ _ _ _ _ _ record Hkw) in Hrec
      as (ln & sz' & pr' & ds' & Hln & Hsz & Hpr & Hds & ->).
    injection Hsz as <-.
    exists title, script, data_json. eexists. repeat split; eauto.
    exists offers, offer, price, description, ln, pr', ds'.
    repeat split; auto.
  - intros (title & script & data_json & r & Ht & Hscript & Hdata
            & (offers & offer & price & description & ln & pr' & ds'
               & Hoffers & Hoffer & Hprice & Hdesc & Hln & Hpr & Hds & ->)
            & ->).
    rewrite Ht, Hscript. simpl not_none. cbn [obind].
    rewrite Hdata. cbn [obind]. rewrite Hoffers. cbn [obind].
    rewrite Hoffer. cbn [obind]. rewrite Hprice. cbn [obind].
    rewrite Hdesc. cbn [obind].
    pose proof (kw_fields_description _ _ _ _ _ _ description
                  (kw_fields_price _ _ _ _ _ _ price
                     (kw_fields_init (py_of_option l) (get_text title))))
      as Hkw.
    assert (Hrec : Themarket
                     (<["description" := description]>
                        (<["price" := price]>
                           (<["name" := PStr (get_text title)]>
                              (<["link" := py_of_option l]> ∅))))
                   = Ok (Product.mk ln "The Market Food Shop" None None None
                           (Some (get_text title)) None None None pr' None
                           "NGN" None ds' today)).
    { apply (Themarket_Ok _ _ _ _ _ _ _ Hkw).
      exists ln, None, pr', ds'. repeat split; auto. }
    rewrite Hrec. reflexivity.
Qed.

Lemma Forall2_In_r {A B} (P : A -> B -> Prop) (l : list A) (l' : list B) y :
  Forall2 P l l' -> In y l' -> exists x, In x l /\ P x y.
Proof.
  induction 1 as [|x y' l l' Hxy _ IH]; simpl; [contradiction|].
  intros [<- | Hin].
  - exists x. split; [left; reflexivity | exact Hxy].
  - destruct (IH Hin) as (x' & Hx' & HP). exists x'. split; [right|]; assumption.
Qed.

Lemma variant_records_agree l title item1 item2 r1 r2 :
  variant_record l title item1 r1 ->
  variant_record l title item2 r2 ->
  same_but_size_price r1 r2.
Proof.
  intros (v1 & p1 & ln1 & sz1 & pr1 & _ & _ & Hln1 & _ & _ & E1)
         (v2 & p2 & ln2 & sz2 & pr2 & _ & _ & Hln2 & _ & _ & E2).
  subst r1 r2. rewrite Hln1 in Hln2. injection Hln2 as <-.
  unfold same_but_size_price. simpl. repeat split; reflexivity.
Qed.

Lemma optional_str_None (v : value) sz :
  optional str_validator (Some v) = Ok sz -> (sz = None <-> v = PNone).
Proof.
  destruct v; simpl; intros Hsz; try discriminate;
    injection Hsz as <-; split; congruence.
Qed.

(** C5. On a product page with a variations form, the parser returns
    records exactly when the title is there, the payload decodes and every
    entry yields a record; it then returns one record per entry, in order,
    whose size is the value of the first attribute whose key starts with
    "attri" and whose price is the entry's display price, and any two of
    the records differ in size and price only. *)
Theorem C5_one_record_per_variant (product : Tag) (l : option string)
  (form : Tag) (rs : list (Product.t pyfloat))
  (Hform : find product variations_form_query = Some form) :
  parse_product Themarket product l [] = Ok rs <->
  exists title data_json items,
    find product product_title_query = Some title /\
    json_loads (tag_get form "data-product_variations") = Ok data_json /\
    py_iter data_json = Ok items /\
    Forall2 (variant_record l (get_text title)) items rs /\
    length rs = length items /\
    forall r1 r2, In r1 rs -> In r2 rs -> same_but_size_price r1 r2.
Proof.
  rewrite (parse_product_variants product l [] form rs Hform). split.
  - intros (title & data_json & items & new & Ht & Hdata & Hitems & Hall & ->).
    exists title, data_json, items. simpl.
    refine (conj Ht (conj Hdata (conj Hitems (conj Hall (conj _ _))))).
    + symmetry. eapply Forall2_length, Hall.
    + intros r1 r2 H1 H2.
      destruct (Forall2_In_r _ _ _ _ Hall H1) as (i1 & _ & Hr1).
      destruct (Forall2_In_r _ _ _ _ Hall H2) as (i2 & _ & Hr2).
      exact (variant_records_agree _ _ _ _ _ _ Hr1 Hr2).
  - intros (title & data_json & items & Ht & Hdata & Hitems & Hall & _).
    exists title, data_json, items, rs. repeat split; auto.
Qed.


(** C10, as amended. A record returned for a product page with a
    variations form has a price and no description, and has a size unless
    the selected attribute is null; a record returned for a page without
    one has a price and no size, and has a description unless the payload
    gives none or null; no record has both a size and a description. The
    price is always there: the field is a float, not an optional one. *)
Theorem C10_record_shapes (product : Tag) (l : option string)
  (rs : list (Product.t pyfloat))
  (Hrun : parse_product Themarket product l [] = Ok rs) :
  match find product variations_form_query with
  | Some form =>
      exists data_json items,
        json_loads (tag_get form "data-product_variations") = Ok data_json /\
        py_iter data_json = Ok items /\
        Forall2 (fun item r =>
                   Product.description r = None /\
                   exists v, selected_attribute item v /\
                             (Product.size r = None <-> v = PNone))
                items rs
  | None =>
      exists script data_json description r,
        find product ld_json_query = Some script /\
        json_loads (Some (get_text script)) = Ok data_json /\
        py_get data_json "description" = Ok description /\
        rs = [r] /\
        Product.size r = None /\
        (Product.description r = None <-> description = PNone)
  end /\
  Forall (fun r => ~ (is_Some (Product.size r) /\
                      is_Some (Product.description r))) rs.
Proof.
  destruct (find product variations_form_query) as [form|] eqn:Hform.
  - destruct (proj1 (parse_product_variants product l [] form rs Hform) Hrun)
      as (title & data_json & items & new & Ht & Hdata & Hitems & Hall & Hrs).
    subst rs. simpl. split.
    + exists data_json, items. repeat split; auto.
      eapply Forall2_impl; [exact Hall|]. intros item r
        (v & p & ln & sz & pr & Hsel & _ & _ & Hsz & _ & ->). simpl.
      split; [reflexivity|]. exists v. split; [exact Hsel|].
      exact (optional_str_None v sz Hsz).
    + clear -Hall. induction Hall as [|item r items new Hr _ IH];
        constructor; [|exact IH].
      destruct Hr as (v & p & ln & sz & pr & _ & _ & _ & _ & _ & ->). simpl.
      intros [_ [x Hx]]. discriminate.
  - destruct (proj1 (parse_product_simple product l [] rs Hform) Hrun)
      as (title & script & data_json & r & Ht & Hs & Hdata
          & (offers & offer & price & description & ln & pr & ds
             & _ & _ & _ & Hdesc & _ & _ & Hds & Hr) & Hrs).
    subst r rs. simpl. split.
    + exists script, data_json, description. eexists.
      repeat split; eauto; simpl; apply (optional_str_None _ _ Hds).
    + constructor; [|constructor]. simpl. intros [[x Hx] _]. discriminate.
Qed.

(** ** The category of the records *)

Local Abbreviation uncategorised :=
  (Forall (fun r : Product.t pyfloat => Product.category r = None)).

Lemma parse_product_category product l results rs :
  uncategorised results ->
  parse_product Themarket product l results = Ok rs ->
  uncategorised rs.
Proof.
  intros Hres Hrun.
  destruct (find product variations_form_query) as [form|] eqn:Hform.
  - destruct (proj1 (parse_product_variants product l results form rs Hform)
                Hrun)
      as (title & data_json & items & new & _ & _ & _ & Hall & Hrs).
    subst rs. apply Forall_app. split; [exact Hres|].
    clear -Hall. induction Hall as [|item r items new Hr _ IH];
      constructor; [|exact IH].
    destruct Hr as (v & p & ln & sz & pr & _ & _ & _ & _ & _ & ->).
    reflexivity.
  - destruct (proj1 (parse_product_simple product l results rs Hform) Hrun)
      as (title & script & data_json & r & _ & _ & _
          & (offers & offer & price & description & ln & pr & ds
             & _ & _ & _ & _ & _ & _ & _ & Hr) & Hrs).
    subst r rs. apply Forall_app. split; [exact Hres|].
    constructor; [reflexivity | constructor].
Qed.

Lemma for_links_category s delay links : forall results h rs h',
  uncategorised results ->
  for_links Themarket s delay links results h = (Ok rs, h') ->
  uncategorised rs.
Proof.
  induction links as [|l rest IH]; intros results h rs h' Hres Hrun.
  - injection Hrun as <- _. exact Hres.
  - simpl in Hrun. unfold bind at 1 in Hrun.
    destruct (scrape_product Themarket s delay l results h)
      as [[rs1|e] h1] eqn:Hone; [|discriminate].
    apply (IH rs1 h1 rs h'); [|exact Hrun].
    unfold scrape_product, bind, lift in Hone.
    destruct (time_sleep delay h) as [[[]|e] h2]; [|discriminate].
    destruct (session_get s ProductFetch l h2) as [[resp|e] h3];
      [|discriminate].
    injection Hone as Hparse _.
    exact (parse_product_category _ _ _ _ Hres Hparse).
Qed.

(** Whatever category name is passed, no record returned by the traversal
    has a category: the dictionary handed to [Themarket] never holds the
    key. *)
Lemma scrape_category_category fuel : forall link category s delay h rs h',
  scrape_category Themarket fuel link category s delay h = (Ok rs, h') ->
  uncategorised rs.
Proof.
  induction fuel as [|fuel IH]; intros link category s delay h rs h' Hrun;
    [discriminate|].
  rewrite scrape_category_S in Hrun. unfold bind at 1 in Hrun.
  destruct (time_sleep delay h) as [[[]|e] h1]; [|discriminate].
  unfold bind at 1 in Hrun.
  destruct (session_get s ListingFetch link h1) as [[resp|e] h2];
    [|discriminate].
  unfold bind at 1 in Hrun.
  destruct (scrape_listing Themarket s delay (BeautifulSoup (text resp)) h2)
    as [[results|e] h3] eqn:Hlisting; [|discriminate].
  assert (Hres : uncategorised results).
  { unfold scrape_listing, bind, lift in Hlisting.
    destruct (product_links (BeautifulSoup (text resp))) as [links|e];
      [|discriminate].
    apply (for_links_category _ _ _ _ _ _ _ (List.Forall_nil _) Hlisting). }
  unfold follow_pagination, try_except_AttributeError, bind, lift, ret in Hrun.
  destruct (not_none (find (BeautifulSoup (text resp)) page_numbers_query))
    as [ul|e].
  - destruct (find ul next_query) as [a|].
    + destruct (scrape_category Themarket fuel (tag_get a "href") category s
                  delay h3) as [[next_results|e] h4] eqn:Hnext.
      * injection Hrun as <- _. apply Forall_app. split; [exact Hres|].
        exact (IH _ _ _ _ _ _ _ Hnext).
      * destruct e; try discriminate. injection Hrun as <- _. exact Hres.
    + injection Hrun as <- _. exact Hres.
  - destruct e; try discriminate. injection Hrun as <- _. exact Hres.
Qed.

End Properties.

(** * The script on the small shop *)

(** C1. The category name handed to [scrape_category] does not reach the
    records: on the two pages of the category "Beans" the traversal returns
    two records, and the category of both is None. *)
Theorem C1_category_is_not_recorded :
  omap (map (fun r => (Product.link r, Product.category r)))
       (fst (scrape_category (H := Shop.world) Themarket 5
               (Some Shop.url_beans1) "Beans" the_session (Some 0) []))
  = Ok [(Shop.url_p1, None); (Shop.url_p3, None)].
Proof. vm_compute. reflexivity. Qed.

(** C2. The traversal does not call [safe_get]: under a policy that
    forbids the product pages, for which [safe_get] returns None, it still
    requests these pages with [s.get] and parses what comes back. *)
Theorem C2_fetches_bypass_the_gate :
  denied (fst (safe_get (H := Shop.world) the_session Shop.robots_no_products
                 Shop.url_p1 [])) = true /\
  denied (fst (safe_get (H := Shop.world) the_session Shop.robots_no_products
                 Shop.url_p3 [])) = true /\
  fetched GateFetch
    (snd (scrape_category (H := Shop.world) Themarket 5
            (Some Shop.url_beans1) "Beans" the_session (Some 0) [])) = [] /\
  fetched ProductFetch
    (snd (scrape_category (H := Shop.world) Themarket 5
            (Some Shop.url_beans1) "Beans" the_session (Some 0) []))
  = [Some Shop.url_p1; Some Shop.url_p3] /\
  fst (scrape_category (H := Shop.world) Themarket 5
         (Some Shop.url_beans1) "Beans" the_session (Some 0) [])
  = Ok [Shop.rice_5kg; Shop.beans_1kg].
Proof. vm_compute. repeat split; reflexivity. Qed.

(** C3. A product page without the title heading makes the parser raise an
    AttributeError. Met on the first listing page, the error ends the
    traversal; met on the second, it is caught by the handler meant for a
    missing pagination widget: the traversal returns the records of the
    first page as if the category ended there, and the run goes on with the
    next category. *)
Theorem C3_failure_on_a_later_page_is_swallowed :
  parse_product (H := Shop.world) Themarket Shop.p5 (Some Shop.url_p5) []
  = Raise AttributeError /\
  fst (scrape_category (H := Shop.world) Themarket 5
         (Some Shop.url_rice2) "Rice" the_session (Some 0) [])
  = Raise AttributeError /\
  fst (scrape_category (H := Shop.world) Themarket 5
         (Some Shop.url_rice1) "Rice" the_session (Some 0) [])
  = Ok [Shop.rice_5kg; Shop.garri_1kg; Shop.garri_2kg; Shop.beans_1kg] /\
  fetched ProductFetch
    (snd (scrape_category (H := Shop.world) Themarket 5
            (Some Shop.url_rice1) "Rice" the_session (Some 0) []))
  = [Some Shop.url_p1; Some Shop.url_p2; Some Shop.url_p3; Some Shop.url_p5] /\
  fst (main (H := Shop.world) 5 Shop.robots_open [])
  = Ok [Shop.rice_5kg; Shop.garri_1kg; Shop.garri_2kg; Shop.beans_1kg;
        Shop.rice_5kg; Shop.beans_1kg].
Proof. vm_compute. repeat split; reflexivity. Qed.

(** C10, as stated, fails: the page of "Beans 1kg" has no variations form,
    its payload has no description, and the record returned for it has
    none. *)
Lemma C10_description_may_be_missing :
  ~ (forall (product : Tag) (l : option string) (rs : list (Product.t Z)),
       find product variations_form_query = None ->
       parse_product (H := Shop.world) Themarket product l [] = Ok rs ->
       Forall (fun r => is_Some (Product.description r) /\
                        Product.size r = None) rs).
Proof.
  intros Hclaim.
  assert (Hall : Forall (fun r : Product.t Z =>
                           is_Some (Product.description r) /\
                           Product.size r = None) [Shop.beans_1kg]).
  { apply (Hclaim Shop.p3 (Some Shop.url_p3)); vm_compute; reflexivity. }
  apply Forall_cons in Hall as [[[d Hd] _] _]. discriminate.
Qed.

(** ** The theorems at work *)

Lemma C5_witness :
  find Shop.p2 variations_form_query = Some Shop.p2_form /\
  parse_product (H := Shop.world) Themarket Shop.p2 (Some Shop.url_p2) []
  = Ok [Shop.garri_1kg; Shop.garri_2kg] /\
  exists title items,
    Forall2 (variant_record (H := Shop.world) (Some Shop.url_p2)
               (get_text title))
            items [Shop.garri_1kg; Shop.garri_2kg] /\
    length [Shop.garri_1kg; Shop.garri_2kg] = length items.
Proof.
  assert (Hform : find Shop.p2 variations_form_query = Some Shop.p2_form)
    by (vm_compute; reflexivity).
  assert (Hrun : parse_product (H := Shop.world) Themarket Shop.p2
                   (Some Shop.url_p2) []
                 = Ok [Shop.garri_1kg; Shop.garri_2kg])
    by (vm_compute; reflexivity).
  split; [exact Hform|]. split; [exact Hrun|].
  destruct (proj1 (C5_one_record_per_variant (H := Shop.world) Shop.p2
                     (Some Shop.url_p2) Shop.p2_form
                     [Shop.garri_1kg; Shop.garri_2kg] Hform) Hrun)
    as (title & data_json & items & _ & _ & _ & Hall & Hlen & _).
  exists title, items. split; [exact Hall | exact Hlen].
Defined.


Lemma beans_chain :
  page_chain (H := Shop.world) Themarket the_session (Some 0)
    [Shop.url_beans1; Shop.url_beans2]
    [[Shop.rice_5kg]; [Shop.beans_1kg]].
Proof.
  apply (chain_next _ _ _ Shop.url_beans1 Shop.beans1).
  - intros hist. exists Shop.url_beans1. split; vm_compute; reflexivity.
  - intros h. vm_compute. reflexivity.
  - eexists _, _. repeat split; vm_compute; reflexivity.
  - apply (chain_last _ _ _ Shop.url_beans2 Shop.beans2).
    + intros hist. exists Shop.url_beans2. split; vm_compute; reflexivity.
    + intros h. vm_compute. reflexivity.
    + left. vm_compute. reflexivity.
Defined.

Lemma C7_witness :
  0 <= 0 /\
  page_chain (H := Shop.world) Themarket the_session (Some 0)
    [Shop.url_beans1; Shop.url_beans2]
    [[Shop.rice_5kg]; [Shop.beans_1kg]] /\
  (length [Shop.url_beans1; Shop.url_beans2] <= 2)%nat /\
  exists ev,
    scrape_category (H := Shop.world) Themarket 2 (Some Shop.url_beans1)
      "Beans" the_session (Some 0) []
    = (Ok [Shop.rice_5kg; Shop.beans_1kg], ev) /\
    fetched ListingFetch ev = [Some Shop.url_beans1; Some Shop.url_beans2].
Proof.
  split; [lia|]. split; [exact beans_chain|]. split; [simpl; lia|].
  destruct (C7_chain_is_traversed_once (H := Shop.world) Themarket
              the_session 0 "Beans" Shop.url_beans1 [Shop.url_beans2]
              [[Shop.rice_5kg]; [Shop.beans_1kg]]
              ltac:(lia) beans_chain 2%nat [] ltac:(simpl; lia))
    as (ev & Hrun & Hf & _).
  exists ev. split; [exact Hrun | exact Hf].
Defined.

Lemma C9_witness :
  crawl_delay Shop.robots_no_products (headers the_session !! "User-Agent")
  = None /\
  http (Externals := Shop.world) session_headers (requested []) root_url
  = Some root_url /\
  link_list (BeautifulSoup (Externals := Shop.world) root_url) <> [] /\
  main (H := Shop.world) 5 Shop.robots_no_products []
  = (Raise TypeError, [Get HomeFetch (Some root_url); Sleep None]).
Proof.
  assert (Hcats : link_list (BeautifulSoup (Externals := Shop.world) root_url)
                  <> []) by (vm_compute; discriminate).
  split; [reflexivity|]. split; [vm_compute; reflexivity|].
  split; [exact Hcats|].
  exact (proj1 (C9_missing_delay_is_passed_as_None (H := Shop.world)
                  Shop.robots_no_products 4 [] root_url
                  eq_refl eq_refl Hcats)).
Defined.

Lemma C10_witness :
  parse_product (H := Shop.world) Themarket Shop.p3 (Some Shop.url_p3) []
  = Ok [Shop.beans_1kg] /\
  Forall (fun r : Product.t Z =>
            ~ (is_Some (Product.size r) /\ is_Some (Product.description r)))
         [Shop.beans_1kg].
Proof.
  assert (Hrun : parse_product (H := Shop.world) Themarket Shop.p3
                   (Some Shop.url_p3) [] = Ok [Shop.beans_1kg])
    by (vm_compute; reflexivity).
  split; [exact Hrun|].
  exact (proj2 (C10_record_shapes (H := Shop.world) Shop.p3
                  (Some Shop.url_p3) [Shop.beans_1kg] Hrun)).
Defined.

(** * Further properties of the script *)

Section Pacing.

Context `{Externals}.

Local Abbreviation value := (pyval pyfloat).

Local Abbreviation traversal_sites := [ListingFetch; ProductFetch].

Ltac log_eq := simpl; rewrite <- ?app_assoc, ?app_nil_r; reflexivity.

Lemma waits_then_gets_app delay reqs1 reqs2 :
  waits_then_gets delay (reqs1 ++ reqs2)
  = (waits_then_gets delay reqs1 ++ waits_then_gets delay reqs2)%list.
Proof. unfold waits_then_gets. apply flat_map_app. Qed.

Lemma paced_nil delay sites cut : paced delay sites cut [].
Proof. exists []. split; [constructor | left; reflexivity]. Qed.

Lemma paced_pair delay sites cut c u :
  In c sites -> paced delay sites cut [Sleep delay; Get c u].
Proof.
  intros Hc. exists [(c, u)]. split; [|left; reflexivity].
  constructor; [exact Hc | constructor].
Qed.

Lemma paced_cut delay sites : paced delay sites true [Sleep delay].
Proof. exists []. split; [constructor | right; split; reflexivity]. Qed.

Lemma paced_app delay sites cut ev1 ev2 :
  paced delay sites false ev1 ->
  paced delay sites cut ev2 ->
  paced delay sites cut (ev1 ++ ev2).
Proof.
  intros (reqs1 & Hs1 & [-> | [Hcut _]]) (reqs2 & Hs2 & Hev2);
    [|discriminate].
  exists (reqs1 ++ reqs2)%list. split; [apply Forall_app; split; assumption|].
  rewrite waits_then_gets_app.
  destruct Hev2 as [-> | [-> ->]]; [left; reflexivity|].
  right. split; [reflexivity|]. rewrite app_assoc. reflexivity.
Qed.

Lemma paced_weaken delay sites cut ev :
  paced delay sites false ev -> paced delay sites cut ev.
Proof.
  intros Hp. rewrite <- (app_nil_r ev). apply paced_app; [exact Hp|].
  apply paced_nil.
Qed.

Lemma time_sleep_cases d h :
  time_sleep d h = (Ok tt, (h ++ [Sleep d])%list) \/
  exists e, time_sleep d h = (Raise e, (h ++ [Sleep d])%list) /\
            (e = TypeError \/ e = ValueError).
Proof.
  unfold time_sleep. destruct d as [z|].
  - destruct (z <? 0); [right; exists ValueError | left]; auto.
  - right. exists TypeError. auto.
Qed.

Section Traversal.

Context {R : Type} (Item : gmap string value -> outcome R).

Lemma scrape_product_paced s delay l results h r h' :
  scrape_product Item s delay l results h = (r, h') ->
  exists ev,
    h' = (h ++ ev)%list /\
    paced delay traversal_sites (delay_rejected r) ev.
Proof.
  unfold scrape_product, bind, lift. intros Hrun.
  destruct (time_sleep_cases delay h) as [Hs | (e & Hs & He)];
    rewrite Hs in Hrun.
  - pose proof (session_get_log s ProductFetch l (h ++ [Sleep delay])) as Hg.
    destruct (session_get s ProductFetch l (h ++ [Sleep delay])%list)
      as [[resp|e] h2]; simpl in Hg; subst h2; injection Hrun as <- <-;
      exists [Sleep delay; Get ProductFetch l];
      (split; [log_eq | apply paced_pair; simpl; auto]).
  - injection Hrun as <- <-. exists [Sleep delay]. split; [reflexivity|].
    destruct He as [-> | ->]; apply paced_cut.
Qed.

Lemma for_links_paced s delay links : forall results h r h',
  for_links Item s delay links results h = (r, h') ->
  exists ev,
    h' = (h ++ ev)%list /\
    paced delay traversal_sites (delay_rejected r) ev.
Proof.
  induction links as [|l rest IH]; intros results h r h' Hrun.
  - injection Hrun as <- <-. exists []. split; [log_eq | apply paced_nil].
  - cbn [for_links] in Hrun. unfold bind in Hrun.
    destruct (scrape_product Item s delay l results h) as [r1 h1] eqn:Hone.
    destruct (scrape_product_paced _ _ _ _ _ _ _ Hone) as (ev1 & -> & Hp1).
    destruct r1 as [rs1|e].
    + destruct (IH _ _ _ _ Hrun) as (ev2 & -> & Hp2).
      exists (ev1 ++ ev2)%list. rewrite app_assoc.
      split; [reflexivity | apply paced_app; assumption].
    + injection Hrun as <- <-. exists ev1. split; [reflexivity | exact Hp1].
Qed.

Lemma scrape_listing_paced s delay page h r h' :
  scrape_listing Item s delay page h = (r, h') ->
  exists ev,
    h' = (h ++ ev)%list /\
    paced delay traversal_sites (delay_rejected r) ev.
Proof.
  unfold scrape_listing, bind, lift. intros Hrun.
  destruct (product_links page) as [links|e].
  - exact (for_links_paced _ _ _ _ _ _ _ Hrun).
  - injection Hrun as <- <-. exists []. split; [log_eq | apply paced_nil].
Qed.

Lemma scrape_category_paced fuel : forall link category s delay h r h',
  scrape_category Item fuel link category s delay h = (r, h') ->
  exists ev,
    h' = (h ++ ev)%list /\
    paced delay traversal_sites (delay_rejected r) ev.
Proof.
  induction fuel as [|fuel IH]; intros link category s delay h r h' Hrun.
  - injection Hrun as <- <-. exists []. split; [log_eq | apply paced_nil].
  - rewrite scrape_category_S in Hrun. unfold bind at 1 in Hrun.
    destruct (time_sleep_cases delay h) as [Hs | (e & Hs & He)];
      rewrite Hs in Hrun.
    2: { injection Hrun as <- <-. exists [Sleep delay].
         split; [reflexivity|]. destruct He as [-> | ->]; apply paced_cut. }
    unfold bind at 1 in Hrun.
    pose proof (session_get_log s ListingFetch link (h ++ [Sleep delay]))
      as Hg.
    assert (Hpair : forall cut,
               paced delay traversal_sites cut
                 [Sleep delay; Get ListingFetch link])
      by (intros cut; apply paced_pair; simpl; auto).
    destruct (session_get s ListingFetch link (h ++ [Sleep delay])%list)
      as [[resp|e] h2]; simpl in Hg; subst h2.
    2: { injection Hrun as <- <-. exists [Sleep delay; Get ListingFetch link].
         split; [log_eq | apply Hpair]. }
    unfold bind at 1 in Hrun.
    destruct (scrape_listing Item s delay (BeautifulSoup (text resp))
                ((h ++ [Sleep delay]) ++ [Get ListingFetch link])%list)
      as [r1 h3] eqn:Hlisting.
    destruct (scrape_listing_paced _ _ _ _ _ _ Hlisting) as (ev1 & -> & Hp1).
    destruct r1 as [results|e].
    2: { injection Hrun as <- <-.
         exists ([Sleep delay; Get ListingFetch link] ++ ev1)%list.
         split; [log_eq | apply paced_app; [apply Hpair | exact Hp1]]. }
    assert (Hhere : paced delay traversal_sites false
                      ([Sleep delay; Get ListingFetch link] ++ ev1))
      by (apply paced_app; [apply Hpair | exact Hp1]).
    unfold follow_pagination, try_except_AttributeError, bind, lift, ret
      in Hrun.
    destruct (not_none (find (BeautifulSoup (text resp)) page_numbers_query))
      as [ul|e].
    + destruct (find ul next_query) as [a|].
      * destruct (scrape_category Item fuel (tag_get a "href") category s
                    delay (((h ++ [Sleep delay]) ++ [Get ListingFetch link])
                             ++ ev1)%list) as [r2 h4] eqn:Hnext.
        destruct (IH _ _ _ _ _ _ _ Hnext) as (ev2 & -> & Hp2).
        exists (([Sleep delay; Get ListingFetch link] ++ ev1) ++ ev2)%list.
        destruct r2 as [next_results|e]; [|destruct e];
          injection Hrun as <- <-;
          (split; [log_eq | apply paced_app; [exact Hhere | exact Hp2]]).
      * injection Hrun as <- <-.
        exists ([Sleep delay; Get ListingFetch link] ++ ev1)%list.
        split; [log_eq | exact Hhere].
    + exists ([Sleep delay; Get ListingFetch link] ++ ev1)%list.
      destruct e; injection Hrun as <- <-;
        (split; [log_eq | apply paced_weaken; exact Hhere]).
Qed.

End Traversal.

End Pacing.

Section Throttle.

Context `{Externals}.

Local Abbreviation value := (pyval pyfloat).



Lemma for_categories_paced fuel delay cats : forall data_list h r h',
  for_categories fuel delay cats data_list h = (r, h') ->
  exists ev,
    h' = (h ++ ev)%list /\
    paced delay [ListingFetch; ProductFetch] (delay_rejected r) ev.
Proof.
  induction cats as [|cat rest IH]; intros data_list h r h' Hrun.
  - injection Hrun as <- <-. exists []. rewrite app_nil_r.
    split; [reflexivity | apply paced_nil].
  - cbn [for_categories] in Hrun. unfold bind in Hrun.
    destruct (scrape_category Themarket fuel (snd cat) (fst cat) the_session
                delay h) as [r1 h1] eqn:Hone.
    destruct (scrape_category_paced _ _ _ _ _ _ _ _ _ Hone) as (ev1 & -> & Hp1).
    destruct r1 as [rs1|e].
    + destruct (IH _ _ _ _ Hrun) as (ev2 & -> & Hp2).
      exists (ev1 ++ ev2)%list. rewrite app_assoc.
      split; [reflexivity | apply paced_app; assumption].
    + injection Hrun as <- <-. exists ev1. split; [reflexivity | exact Hp1].
Qed.

(** X3. The run requests the home page first, without waiting; every
    later request is issued right after a wait of the crawl delay that the
    policy gives for the session's User-Agent, for all categories alike. *)
Theorem X3_run_waits_the_crawl_delay (fuel : nat) (robots : RobotFileParser)
  (h : list event) :
  exists ev,
    snd (main fuel robots h)
    = (h ++ Get HomeFetch (Some root_url) :: ev)%list /\
    paced (crawl_delay robots (headers the_session !! "User-Agent"))
      [ListingFetch; ProductFetch]
      (delay_rejected (fst (main fuel robots h))) ev /\
    fetched HomeFetch ev = [].
Proof.
  assert (Hhome : forall delay cut ev,
             paced delay [ListingFetch; ProductFetch] cut ev ->
             fetched HomeFetch ev = []).
  { intros delay cut ev (reqs & Hsites & Hev).
    assert (Hb : fetched HomeFetch (waits_then_gets delay reqs) = []).
    { clear Hev. induction Hsites as [|[c u] reqs Hc _ IH]; [reflexivity|].
      change (waits_then_gets delay ((c, u) :: reqs))
        with ([Sleep delay; Get c u] ++ waits_then_gets delay reqs)%list.
      rewrite fetched_app, IH. simpl in Hc.
      destruct Hc as [<- | [<- | []]]; reflexivity. }
    destruct Hev as [-> | [_ ->]]; [exact Hb|].
    rewrite fetched_app, Hb. reflexivity. }
  unfold main, bind.
  pose proof (session_get_log the_session HomeFetch (Some root_url) h) as Hg.
  destruct (session_get the_session HomeFetch (Some root_url) h)
    as [[homepage|e] h1]; simpl in Hg; subst h1.
  - destruct (for_categories fuel
                (crawl_delay robots (headers the_session !! "User-Agent"))
                (link_list (BeautifulSoup (text homepage))) []
                (h ++ [Get HomeFetch (Some root_url)])%list)
      as [r h'] eqn:Hrun.
    destruct (for_categories_paced _ _ _ _ _ _ _ Hrun) as (ev & -> & Hp).
    exists ev. simpl. rewrite <- app_assoc.
    split; [reflexivity|]. split; [exact Hp | exact (Hhome _ _ _ Hp)].
  - exists []. simpl. split; [reflexivity|].
    split; [apply paced_nil | reflexivity].
Qed.

Section Aborts.

Context {R : Type} (Item : gmap string value -> outcome R).

(** X4. The traversal has no guard against a cycle: on a listing page
    whose next link points to the page itself, it fetches the page once per
    level of recursion and ends in a RecursionError, whatever the depth
    allowed. *)
Theorem X4_self_link_never_returns (s : Session) (d : Z) (category : string)
  (url : string) (page : Tag) (results : list R)
  (Hdelay : 0 <= d)
  (Hserved : serves s url page)
  (Hproducts : forall h, fst (scrape_listing Item s (Some d) page h)
                         = Ok results)
  (Hself : next_is page url) :
  forall (fuel : nat) (h : list event),
    exists ev,
      scrape_category Item fuel (Some url) category s (Some d) h
      = (Raise RecursionError, (h ++ ev)%list) /\
      fetched ListingFetch ev = repeat (Some url) fuel.
Proof.
  induction fuel as [|fuel IH]; intros h.
  - exists []. rewrite app_nil_r. split; reflexivity.
  - destruct (scrape_category_served Item fuel url page results category s d h
                Hdelay Hserved Hproducts) as (ev1 & Hf1 & Heq).
    destruct (IH (h ++ ev1)%list) as (ev2 & Hrec & Hf2).
    exists (ev1 ++ ev2)%list. rewrite Heq.
    rewrite (follow_pagination_propagates Item fuel category s (Some d) page
               results url RecursionError _ _ Hself ltac:(discriminate) Hrec).
    rewrite fetched_app, Hf1, Hf2, app_assoc. split; reflexivity.
Qed.

(** X5. A next control without a target does not end the traversal: the
    recursive call is made with None as link, waits, and the HTTP client
    rejects the link; its exception is not caught and the records of the
    pages read so far are lost. *)
Theorem X5_next_without_target_aborts (s : Session) (d : Z)
  (category : string) (url : string) (page ul a : Tag) (results : list R)
  (fuel : nat) (h : list event)
  (Hdelay : 0 <= d)
  (Hserved : serves s url page)
  (Hproducts : forall h, fst (scrape_listing Item s (Some d) page h)
                         = Ok results)
  (Hul : find page page_numbers_query = Some ul)
  (Hnext : find ul next_query = Some a)
  (Hhref : tag_get a "href" = None) :
  exists ev,
    scrape_category Item (S (S fuel)) (Some url) category s (Some d) h
    = (Raise RequestException,
       (h ++ ev ++ [Sleep (Some d); Get ListingFetch None])%list) /\
    fetched ListingFetch ev = [Some url].
Proof.
  destruct (scrape_category_served Item (S fuel) url page results category s d
              h Hdelay Hserved Hproducts) as (ev1 & Hf1 & Heq).
  exists ev1. split; [|exact Hf1]. rewrite Heq.
  unfold follow_pagination, try_except_AttributeError, bind at 1, lift.
  rewrite Hul. simpl not_none. cbv beta iota. rewrite Hnext, Hhref.
  rewrite scrape_category_S. unfold bind.
  rewrite (time_sleep_ok d _ Hdelay). simpl.
  rewrite <- !app_assoc. reflexivity.
Qed.

(** X6. What fails while the first listing page is processed is not
    caught: the exception raised by the product loop, whatever it is, is
    the outcome of the traversal. *)
Theorem X6_first_page_failure_propagates (s : Session) (d : Z)
  (category : string) (url : string) (page : Tag) (fuel : nat)
  (h h' : list event) (e : exn)
  (Hdelay : 0 <= d)
  (Hserved : serves s url page)
  (Hfails : scrape_listing Item s (Some d) page
              (h ++ [Sleep (Some d); Get ListingFetch (Some url)])%list
            = (Raise e, h')) :
  scrape_category Item (S fuel) (Some url) category s (Some d) h
  = (Raise e, h').
Proof.
  destruct (session_get_served s ListingFetch url page
              (h ++ [Sleep (Some d)])%list Hserved) as (body & Hget & Hpage).
  rewrite scrape_category_S. unfold bind at 1.
  rewrite (time_sleep_ok d h Hdelay). unfold bind at 1. rewrite Hget.
  cbn [text]. rewrite Hpage. unfold bind at 1.
  rewrite <- app_assoc. simpl app. rewrite Hfails. reflexivity.
Qed.

End Aborts.

End Throttle.

Section Records.

Context `{Externals}.

Local Abbreviation value := (pyval pyfloat).

(** A record built for the product page at [l]: it carries this link and
    the defaults. *)
Local Abbreviation from_page l :=
  (fun r : Product.t pyfloat =>
     l = Some (Product.link r) /\ traversal_defaults r).

(** A record whose link was requested in the log [ev]. *)
Local Abbreviation from_log ev :=
  (fun r : Product.t pyfloat =>
     In (Some (Product.link r)) (fetched ProductFetch ev) /\
     traversal_defaults r).

Lemma link_validated (l : option string) ln :
  required str_validator (Some (py_of_option l)) = Ok ln -> l = Some ln.
Proof.
  destruct l as [u|]; simpl; [|discriminate]. intros Hu. congruence.
Qed.

Lemma variant_record_from_page l title item r :
  variant_record l title item r -> from_page l r.
Proof.
  intros (v & p & ln & sz & pr & _ & _ & Hln & _ & _ & ->).
  split; [exact (link_validated _ _ Hln)|].
  unfold traversal_defaults. simpl. repeat split; try reflexivity.
  eexists. reflexivity.
Qed.

Lemma simple_record_from_page l title data_json r :
  simple_record l title data_json r -> from_page l r.
Proof.
  intros (offers & offer & price & description & ln & pr & ds
          & _ & _ & _ & _ & Hln & _ & _ & ->).
  split; [exact (link_validated _ _ Hln)|].
  unfold traversal_defaults. simpl. repeat split; try reflexivity.
  eexists. reflexivity.
Qed.

Lemma parse_product_new product l results rs :
  parse_product Themarket product l results = Ok rs ->
  exists new, rs = (results ++ new)%list /\ Forall (from_page l) new.
Proof.
  intros Hrun.
  destruct (find product variations_form_query) as [form|] eqn:Hform.
  - destruct (proj1 (parse_product_variants product l results form rs Hform)
                Hrun)
      as (title & data_json & items & new & _ & _ & _ & Hall & Hrs).
    exists new. split; [exact Hrs|].
    clear -Hall. induction Hall as [|item r items new Hr _ IH].
    + apply List.Forall_nil.
    + apply List.Forall_cons; [|exact IH].
      exact (variant_record_from_page _ _ _ _ Hr).
  - destruct (proj1 (parse_product_simple product l results rs Hform) Hrun)
      as (title & script & data_json & r & _ & _ & _ & Hr & Hrs).
    exists [r]. split; [exact Hrs|].
    apply List.Forall_cons; [|apply List.Forall_nil].
    exact (simple_record_from_page _ _ _ _ Hr).
Qed.

Lemma from_log_app_l ev1 ev2 rs :
  Forall (from_log ev1) rs -> Forall (from_log (ev1 ++ ev2)) rs.
Proof.
  intros Hall. eapply Forall_impl; [exact Hall|].
  intros r [Hin Hd]. split; [|exact Hd].
  rewrite fetched_app. apply in_or_app. left. exact Hin.
Qed.

Lemma from_log_app_r ev1 ev2 rs :
  Forall (from_log ev2) rs -> Forall (from_log (ev1 ++ ev2)) rs.
Proof.
  intros Hall. eapply Forall_impl; [exact Hall|].
  intros r [Hin Hd]. split; [|exact Hd].
  rewrite fetched_app. apply in_or_app. right. exact Hin.
Qed.

Lemma for_links_new s delay links : forall results h rs h',
  for_links Themarket s delay links results h = (Ok rs, h') ->
  exists new ev,
    rs = (results ++ new)%list /\ h' = (h ++ ev)%list /\
    Forall (from_log ev) new.
Proof.
  induction links as [|l rest IH]; intros results h rs h' Hrun.
  - injection Hrun as <- <-. exists [], []. rewrite !app_nil_r.
    repeat split. apply List.Forall_nil.
  - cbn [for_links] in Hrun. unfold bind at 1 in Hrun.
    destruct (scrape_product Themarket s delay l results h)
      as [[rs1|e] h1] eqn:Hone; [|discriminate].
    destruct (IH _ _ _ _ Hrun) as (new2 & ev2 & -> & -> & Hnew2).
    unfold scrape_product, bind, lift in Hone.
    pose proof (time_sleep_log delay h) as Hs.
    destruct (time_sleep delay h) as [[[]|e] h2]; [|discriminate].
    simpl in Hs. subst h2.
    pose proof (session_get_log s ProductFetch l (h ++ [Sleep delay])) as Hg.
    destruct (session_get s ProductFetch l (h ++ [Sleep delay])%list)
      as [[resp|e] h3]; [|discriminate].
    simpl in Hg. subst h3. injection Hone as Hparse <-.
    destruct (parse_product_new _ _ _ _ Hparse) as (new1 & -> & Hnew1).
    exists (new1 ++ new2)%list, ([Sleep delay; Get ProductFetch l] ++ ev2)%list.
    rewrite <- !app_assoc. repeat split.
    apply Forall_app. split.
    + apply from_log_app_l. eapply Forall_impl; [exact Hnew1|].
      intros r [-> Hd]. split; [left; reflexivity | exact Hd].
    + apply from_log_app_r. exact Hnew2.
Qed.

(** Every record returned by a traversal was built for a product page that
    the traversal requested, and carries the defaults. *)
Lemma scrape_category_records fuel : forall link category s delay h rs h',
  scrape_category Themarket fuel link category s delay h = (Ok rs, h') ->
  exists ev, h' = (h ++ ev)%list /\ Forall (from_log ev) rs.
Proof.
  induction fuel as [|fuel IH]; intros link category s delay h rs h' Hrun;
    [discriminate|].
  rewrite scrape_category_S in Hrun. unfold bind at 1 in Hrun.
  pose proof (time_sleep_log delay h) as Hs.
  destruct (time_sleep delay h) as [[[]|e] h1]; [|discriminate].
  simpl in Hs. subst h1. unfold bind at 1 in Hrun.
  pose proof (session_get_log s ListingFetch link (h ++ [Sleep delay])) as Hg.
  destruct (session_get s ListingFetch link (h ++ [Sleep delay])%list)
    as [[resp|e] h2]; [|discriminate].
  simpl in Hg. subst h2. unfold bind at 1 in Hrun.
  destruct (scrape_listing Themarket s delay (BeautifulSoup (text resp))
              ((h ++ [Sleep delay]) ++ [Get ListingFetch link])%list)
    as [[results|e] h3] eqn:Hlisting; [|discriminate].
  assert (Hres : exists ev1,
             h3 = (((h ++ [Sleep delay]) ++ [Get ListingFetch link]) ++ ev1)%list
             /\ Forall (from_log ev1) results).
  { unfold scrape_listing, bind, lift in Hlisting.
    destruct (product_links (BeautifulSoup (text resp))) as [links|e];
      [|discriminate].
    destruct (for_links_new _ _ _ _ _ _ _ Hlisting)
      as (new & ev1 & -> & -> & Hnew).
    exists ev1. split; [reflexivity | exact Hnew]. }
  destruct Hres as (ev1 & -> & Hres).
  assert (Hhere : forall ev2,
             Forall (from_log
                       (([Sleep delay; Get ListingFetch link] ++ ev1) ++ ev2))
                    results).
  { intros ev2. apply from_log_app_l, from_log_app_r. exact Hres. }
  unfold follow_pagination, try_except_AttributeError, bind, lift, ret in Hrun.
  destruct (not_none (find (BeautifulSoup (text resp)) page_numbers_query))
    as [ul|e].
  - destruct (find ul next_query) as [a|].
    + destruct (scrape_category Themarket fuel (tag_get a "href") category s
                  delay (((h ++ [Sleep delay]) ++ [Get ListingFetch link])
                           ++ ev1)%list) as [r2 h4] eqn:Hnext.
      destruct (scrape_category_paced _ _ _ _ _ _ _ _ _ Hnext)
        as (ev2 & -> & _).
      exists (([Sleep delay; Get ListingFetch link] ++ ev1) ++ ev2)%list.
      destruct r2 as [next_results|e].
      * injection Hrun as <- <-.
        split; [simpl; rewrite <- !app_assoc; reflexivity|].
        apply Forall_app. split; [apply Hhere|].
        destruct (IH _ _ _ _ _ _ _ Hnext) as (ev2' & Heq & Hnext').
        apply app_inv_head in Heq. subst ev2'.
        apply from_log_app_r. exact Hnext'.
      * destruct e; try discriminate. injection Hrun as <- <-.
        split; [simpl; rewrite <- !app_assoc; reflexivity | apply Hhere].
    + injection Hrun as <- <-.
      exists (([Sleep delay; Get ListingFetch link] ++ ev1) ++ [])%list.
      split; [simpl; rewrite <- !app_assoc, app_nil_r; reflexivity
             | apply Hhere].
  - destruct e; try discriminate. injection Hrun as <- <-.
    exists (([Sleep delay; Get ListingFetch link] ++ ev1) ++ [])%list.
    split; [simpl; rewrite <- !app_assoc, app_nil_r; reflexivity | apply Hhere].
Qed.

(** X7. Every record returned by a traversal with [Themarket] has the
    source "The Market Food Shop", the currency "NGN", the date of the day
    the module was loaded and a name; its category, subcategory,
    subsubcategory, brand, uid, regular price and stock are None. *)
Theorem X7_records_carry_the_defaults (fuel : nat) (link : option string)
  (category : string) (s : Session) (delay : option Z) (h h' : list event)
  (rs : list (Product.t pyfloat))
  (Hrun : scrape_category Themarket fuel link category s delay h
          = (Ok rs, h')) :
  Forall traversal_defaults rs.
Proof.
  destruct (scrape_category_records _ _ _ _ _ _ _ _ Hrun) as (ev & _ & Hall).
  eapply Forall_impl; [exact Hall|]. intros r [_ Hd]. exact Hd.
Qed.

(** X8. The link of every record returned by a traversal is the URL of a
    product page that this traversal requested. *)
Theorem X8_record_links_were_fetched (fuel : nat) (link : option string)
  (category : string) (s : Session) (delay : option Z) (h h' : list event)
  (rs : list (Product.t pyfloat))
  (Hrun : scrape_category Themarket fuel link category s delay h
          = (Ok rs, h')) :
  exists ev,
    h' = (h ++ ev)%list /\
    Forall (fun r => In (Some (Product.link r)) (fetched ProductFetch ev)) rs.
Proof.
  destruct (scrape_category_records _ _ _ _ _ _ _ _ Hrun) as (ev & Hlog & Hall).
  exists ev. split; [exact Hlog|].
  eapply Forall_impl; [exact Hall|]. intros r [Hin _]. exact Hin.
Qed.

Lemma columns_of_defaults (r : Product.t pyfloat) :
  traversal_defaults r ->
  map fst (dict_exclude_none r)
  = columns (bool_decide (is_Some (Product.size r)))
            (bool_decide (is_Some (Product.description r))).
Proof.
  intros (_ & _ & _ & Hc & Hsc & Hssc & Hb & Hu & Hrp & His & [n Hn]).
  unfold dict_exclude_none, fields.
  rewrite Hc, Hsc, Hssc, Hb, Hu, Hrp, His, Hn.
  destruct (Product.size r), (Product.description r); reflexivity.
Qed.

(** X9. The row exported for a record of a traversal has the columns
    link, source, name, price, currency and date, with size and
    description when the record has them, in this order; no category,
    brand, uid, regular price or stock is ever exported. *)
Theorem X9_exported_columns (fuel : nat) (link : option string)
  (category : string) (s : Session) (delay : option Z) (h h' : list event)
  (rs : list (Product.t pyfloat))
  (Hrun : scrape_category Themarket fuel link category s delay h
          = (Ok rs, h')) :
  Forall (fun r =>
            map fst (dict_exclude_none r)
            = columns (bool_decide (is_Some (Product.size r)))
                      (bool_decide (is_Some (Product.description r)))) rs.
Proof.
  destruct (scrape_category_records _ _ _ _ _ _ _ _ Hrun) as (ev & _ & Hall).
  eapply Forall_impl; [exact Hall|]. intros r [_ Hd].
  exact (columns_of_defaults r Hd).
Qed.

End Records.

Section Run.

Context `{Externals}.

Local Abbreviation value := (pyval pyfloat).

Lemma for_categories_cap fuel delay cats : forall data_list h,
  exists ev,
    snd (for_categories fuel delay cats data_list h) = (h ++ ev)%list /\
    (length (fetched ProductFetch ev)
     <= 3 * length (fetched ListingFetch ev))%nat.
Proof.
  induction cats as [|cat rest IH]; intros data_list h.
  - exists []. simpl. rewrite app_nil_r. split; [reflexivity | lia].
  - cbn [for_categories]. unfold bind.
    destruct (scrape_category_cap Themarket fuel (snd cat) (fst cat)
                the_session delay h) as (ev1 & Hlog1 & Hcap1).
    destruct (scrape_category Themarket fuel (snd cat) (fst cat) the_session
                delay h) as [[rs1|e] h1]; simpl in Hlog1; subst h1.
    + destruct (IH (data_list ++ rs1)%list (h ++ ev1)%list)
        as (ev2 & Hlog2 & Hcap2).
      exists (ev1 ++ ev2)%list. rewrite app_assoc. split; [exact Hlog2|].
      rewrite !fetched_app, !length_app. lia.
    + exists ev1. split; [reflexivity | exact Hcap1].
Qed.

(** X1. Over a whole run, whatever the site serves, the product pages
    requested are at most three per listing page requested. *)
Theorem X1_run_fetches_three_products_per_listing (fuel : nat)
  (robots : RobotFileParser) (h : list event) :
  exists ev,
    snd (main fuel robots h)
    = (h ++ Get HomeFetch (Some root_url) :: ev)%list /\
    (length (fetched ProductFetch ev)
     <= 3 * length (fetched ListingFetch ev))%nat.
Proof.
  unfold main, bind.
  pose proof (session_get_log the_session HomeFetch (Some root_url) h) as Hg.
  destruct (session_get the_session HomeFetch (Some root_url) h)
    as [[homepage|e] h1]; simpl in Hg; subst h1.
  - destruct (for_categories_cap fuel
                (crawl_delay robots (headers the_session !! "User-Agent"))
                (link_list (BeautifulSoup (text homepage))) []
                (h ++ [Get HomeFetch (Some root_url)])%list)
      as (ev & Hlog & Hcap).
    exists ev. rewrite Hlog, <- app_assoc. split; [reflexivity | exact Hcap].
  - exists []. simpl. split; [reflexivity | lia].
Qed.

(** ** Products that yield no record *)

(** X10. A product page whose variations form carries an empty payload
    (an empty list, object or string) adds no record and raises nothing:
    the product is left out of the results, whatever the record class. *)
Theorem X10_empty_payload_adds_nothing {R : Type}
  (Item : gmap string value -> outcome R) (product : Tag)
  (l : option string) (results : list R) (title form : Tag)
  (data_json : value)
  (Htitle : find product product_title_query = Some title)
  (Hform : find product variations_form_query = Some form)
  (Hdata : json_loads (tag_get form "data-product_variations") = Ok data_json)
  (Hempty : py_iter data_json = Ok []) :
  parse_product Item product l results = Ok results.
Proof.
  unfold parse_product. rewrite Htitle, Hform.
  rewrite bool_decide_eq_true_2 by (eexists; reflexivity).
  simpl not_none. cbn [obind]. rewrite Hdata. cbn [obind].
  rewrite Hempty. reflexivity.
Qed.

Lemma Product_needs_source (kw : gmap string value) :
  kw !! "source" = None -> Product kw = Raise ValidationError.
Proof.
  intros Hs. unfold Product, BaseModel_init. rewrite Hs.
  destruct (required str_validator (kw !! "link")) as [ln|e] eqn:Hl;
    [reflexivity|].
  simpl. f_equal.
  destruct (kw !! "link") as [[]|]; simpl in Hl; congruence.
Qed.

(** X11. With the base class [Product] as record class the parser never
    adds a record: the traversal gives neither source nor currency, which
    [Product] requires, so the construction of every record fails. *)
Theorem X11_base_class_yields_no_record (product : Tag) (l : option string)
  (results : list (Product.t pyfloat)) :
  match parse_product Product product l results with
  | Ok rs => rs = results
  | Raise _ => True
  end.
Proof.
  unfold parse_product.
  destruct (not_none (find product product_title_query)) as [title|e];
    cbn [obind]; [|exact I].
  destruct (bool_decide (is_Some (find product variations_form_query))).
  - destruct (not_none (find product variations_form_query)) as [form|e];
      cbn [obind]; [|exact I].
    destruct (json_loads (tag_get form "data-product_variations"))
      as [data_json|e]; cbn [obind]; [|exact I].
    destruct (py_iter data_json) as [[|item rest]|e]; cbn [obind];
      [reflexivity | | exact I].
    cbn [variants_loop].
    destruct (py_get item "attributes") as [attributes|e]; cbn [obind];
      [|exact I].
    destruct (py_items attributes) as [items|e]; cbn [obind]; [|exact I].
    destruct (List.filter (fun kv : string * value =>
                             String.prefix "attri" (fst kv)) items)
      as [|kv t]; cbn [obind]; [exact I|].
    destruct (py_get item "display_price") as [price|e]; cbn [obind];
      [|exact I].
    rewrite Product_needs_source by reflexivity. exact I.
  - destruct (not_none (find product ld_json_query)) as [script|e];
      cbn [obind]; [|exact I].
    destruct (json_loads (Some (get_text script))) as [data_json|e];
      cbn [obind]; [|exact I].
    destruct (py_get data_json "offers") as [offers|e]; cbn [obind];
      [|exact I].
    destruct (py_index0 offers) as [offer|e]; cbn [obind]; [|exact I].
    destruct (py_get offer "price") as [price|e]; cbn [obind]; [|exact I].
    destruct (py_get data_json "description") as [description|e];
      cbn [obind]; [|exact I].
    rewrite Product_needs_source by reflexivity. exact I.
Qed.

(** ** Validation *)



Section Validators.

Context {T : Type} (validator : value -> outcome T)
  (Hraises : forall v e, validator v = Raise e -> e = ValidationError).





End Validators.


(** ** Export *)

(** X13. The dictionary exported for a record, which leaves out the
    fields that are None, holds all of the record: handing it back to
    [Themarket], or to [Product], rebuilds the same record. *)
Theorem X13_export_round_trip (r : Product.t pyfloat) :
  Themarket (kwargs (dict_exclude_none r)) = Ok r /\
  Product (kwargs (dict_exclude_none r)) = Ok r.
Proof.
  destruct r as [link source category subcategory subsubcategory name brand
                 size uid price regular_price currency in_stock description
                 date].
  destruct category, subcategory, subsubcategory, name, brand, size, uid,
    regular_price, in_stock, description; vm_compute; split; reflexivity.
Qed.

End Run.

(** ** The further theorems at work *)

Lemma loop_served : serves (H := Edge.world) the_session Edge.url_loop Edge.loop.
Proof. intros hist. exists Edge.url_loop. split; vm_compute; reflexivity. Defined.

Lemma loop_points_to_itself : next_is Edge.loop Edge.url_loop.
Proof. eexists _, _. repeat split; vm_compute; reflexivity. Defined.

Lemma X4_witness :
  0 <= 0 /\
  serves (H := Edge.world) the_session Edge.url_loop Edge.loop /\
  (forall h, fst (scrape_listing (H := Edge.world) Themarket the_session
                    (Some 0) Edge.loop h) = Ok []) /\
  next_is Edge.loop Edge.url_loop /\
  exists ev,
    scrape_category (H := Edge.world) Themarket 3 (Some Edge.url_loop) "Loop"
      the_session (Some 0) []
    = (Raise RecursionError, ev) /\
    fetched ListingFetch ev
    = [Some Edge.url_loop; Some Edge.url_loop; Some Edge.url_loop].
Proof.
  assert (Hproducts : forall h,
             fst (scrape_listing (H := Edge.world) Themarket the_session
                    (Some 0) Edge.loop h) = Ok [])
    by (intros h; vm_compute; reflexivity).
  split; [lia|]. split; [exact loop_served|]. split; [exact Hproducts|].
  split; [exact loop_points_to_itself|].
  destruct (X4_self_link_never_returns (H := Edge.world) Themarket the_session
              0 "Loop" Edge.url_loop Edge.loop [] ltac:(lia) loop_served
              Hproducts loop_points_to_itself 3%nat [])
    as (ev & Hrun & Hf).
  exists ev. split; [exact Hrun | exact Hf].
Defined.

Lemma nohref_served :
  serves (H := Edge.world) the_session Edge.url_nohref Edge.nohref.
Proof.
  intros hist. exists Edge.url_nohref. split; vm_compute; reflexivity.
Defined.

Lemma X5_witness :
  0 <= 0 /\
  serves (H := Edge.world) the_session Edge.url_nohref Edge.nohref /\
  (forall h, fst (scrape_listing (H := Edge.world) Themarket the_session
                    (Some 0) Edge.nohref h) = Ok []) /\
  find Edge.nohref page_numbers_query
  = Some (Shop.el "ul" ["page-numbers"] [] [Shop.el "a" ["next"] [] []]) /\
  find (Shop.el "ul" ["page-numbers"] [] [Shop.el "a" ["next"] [] []])
       next_query
  = Some (Shop.el "a" ["next"] [] []) /\
  tag_get (Shop.el "a" ["next"] [] []) "href" = None /\
  fst (scrape_category (H := Edge.world) Themarket 2 (Some Edge.url_nohref)
         "Odd" the_session (Some 0) [])
  = Raise RequestException.
Proof.
  assert (Hproducts : forall h,
             fst (scrape_listing (H := Edge.world) Themarket the_session
                    (Some 0) Edge.nohref h) = Ok [])
    by (intros h; vm_compute; reflexivity).
  assert (Hul : find Edge.nohref page_numbers_query
                = Some (Shop.el "ul" ["page-numbers"] []
                          [Shop.el "a" ["next"] [] []]))
    by (vm_compute; reflexivity).
  assert (Hnext : find (Shop.el "ul" ["page-numbers"] []
                          [Shop.el "a" ["next"] [] []]) next_query
                  = Some (Shop.el "a" ["next"] [] []))
    by (vm_compute; reflexivity).
  assert (Hhref : tag_get (Shop.el "a" ["next"] [] []) "href" = None)
    by (vm_compute; reflexivity).
  split; [lia|]. split; [exact nohref_served|]. split; [exact Hproducts|].
  split; [exact Hul|]. split; [exact Hnext|]. split; [exact Hhref|].
  destruct (X5_next_without_target_aborts (H := Edge.world) Themarket
              the_session 0 "Odd" Edge.url_nohref Edge.nohref _ _ [] 0%nat []
              ltac:(lia) nohref_served Hproducts Hul Hnext Hhref)
    as (ev & Hrun & _).
  rewrite Hrun. reflexivity.
Defined.

Lemma rice2_served :
  serves (H := Shop.world) the_session Shop.url_rice2 Shop.rice2.
Proof.
  intros hist. exists Shop.url_rice2. split; vm_compute; reflexivity.
Defined.

Lemma X6_witness :
  0 <= 0 /\
  serves (H := Shop.world) the_session Shop.url_rice2 Shop.rice2 /\
  scrape_listing (H := Shop.world) Themarket the_session (Some 0) Shop.rice2
    ([] ++ [Sleep (Some 0); Get ListingFetch (Some Shop.url_rice2)])%list
  = (Raise AttributeError,
     [Sleep (Some 0); Get ListingFetch (Some Shop.url_rice2);
      Sleep (Some 0); Get ProductFetch (Some Shop.url_p5)]) /\
  scrape_category (H := Shop.world) Themarket 1 (Some Shop.url_rice2) "Rice"
    the_session (Some 0) []
  = (Raise AttributeError,
     [Sleep (Some 0); Get ListingFetch (Some Shop.url_rice2);
      Sleep (Some 0); Get ProductFetch (Some Shop.url_p5)]).
Proof.
  assert (Hfails :
            scrape_listing (H := Shop.world) Themarket the_session (Some 0)
              Shop.rice2
              ([] ++ [Sleep (Some 0); Get ListingFetch (Some Shop.url_rice2)])%list
            = (Raise AttributeError,
               [Sleep (Some 0); Get ListingFetch (Some Shop.url_rice2);
                Sleep (Some 0); Get ProductFetch (Some Shop.url_p5)]))
    by (vm_compute; reflexivity).
  split; [lia|]. split; [exact rice2_served|]. split; [exact Hfails|].
  exact (X6_first_page_failure_propagates (H := Shop.world) Themarket
           the_session 0 "Rice" Shop.url_rice2 Shop.rice2 0%nat [] _
           AttributeError ltac:(lia) rice2_served Hfails).
Defined.

Lemma beans_run :
  scrape_category (H := Shop.world) Themarket 5 (Some Shop.url_beans1) "Beans"
    the_session (Some 0) []
  = (Ok [Shop.rice_5kg; Shop.beans_1kg],
     [Sleep (Some 0); Get ListingFetch (Some Shop.url_beans1);
      Sleep (Some 0); Get ProductFetch (Some Shop.url_p1);
      Sleep (Some 0); Get ListingFetch (Some Shop.url_beans2);
      Sleep (Some 0); Get ProductFetch (Some Shop.url_p3)]).
Proof. vm_compute. reflexivity. Defined.

Lemma X7_witness :
  scrape_category (H := Shop.world) Themarket 5 (Some Shop.url_beans1) "Beans"
    the_session (Some 0) []
  = (Ok [Shop.rice_5kg; Shop.beans_1kg],
     [Sleep (Some 0); Get ListingFetch (Some Shop.url_beans1);
      Sleep (Some 0); Get ProductFetch (Some Shop.url_p1);
      Sleep (Some 0); Get ListingFetch (Some Shop.url_beans2);
      Sleep (Some 0); Get ProductFetch (Some Shop.url_p3)]) /\
  Forall (traversal_defaults (H := Shop.world))
         [Shop.rice_5kg; Shop.beans_1kg].
Proof.
  split; [exact beans_run|].
  exact (X7_records_carry_the_defaults (H := Shop.world) _ _ _ _ _ _ _ _
           beans_run).
Defined.

Lemma X8_witness :
  scrape_category (H := Shop.world) Themarket 5 (Some Shop.url_beans1) "Beans"
    the_session (Some 0) []
  = (Ok [Shop.rice_5kg; Shop.beans_1kg],
     [Sleep (Some 0); Get ListingFetch (Some Shop.url_beans1);
      Sleep (Some 0); Get ProductFetch (Some Shop.url_p1);
      Sleep (Some 0); Get ListingFetch (Some Shop.url_beans2);
      Sleep (Some 0); Get ProductFetch (Some Shop.url_p3)]) /\
  exists ev,
    Forall (fun r : Product.t Z =>
              In (Some (Product.link r)) (fetched ProductFetch ev))
           [Shop.rice_5kg; Shop.beans_1kg].
Proof.
  split; [exact beans_run|].
  destruct (X8_record_links_were_fetched (H := Shop.world) _ _ _ _ _ _ _ _
              beans_run) as (ev & _ & Hall).
  exists ev. exact Hall.
Defined.

Lemma X9_witness :
  scrape_category (H := Shop.world) Themarket 5 (Some Shop.url_beans1) "Beans"
    the_session (Some 0) []
  = (Ok [Shop.rice_5kg; Shop.beans_1kg],
     [Sleep (Some 0); Get ListingFetch (Some Shop.url_beans1);
      Sleep (Some 0); Get ProductFetch (Some Shop.url_p1);
      Sleep (Some 0); Get ListingFetch (Some Shop.url_beans2);
      Sleep (Some 0); Get ProductFetch (Some Shop.url_p3)]) /\
  map fst (dict_exclude_none Shop.rice_5kg)
  = ["link"; "source"; "name"; "price"; "currency"; "description"; "date"].
Proof.
  split; [exact beans_run|].
  pose proof (X9_exported_columns (H := Shop.world) _ _ _ _ _ _ _ _ beans_run)
    as Hall.
  apply Forall_cons in Hall as [Hrice _]. exact Hrice.
Defined.

Lemma X10_witness :
  find Edge.sold_out product_title_query
  = Some (Shop.el "h1" ["product_title"] [] [NavigableString "Sold out"]) /\
  find Edge.sold_out variations_form_query = Some Edge.sold_out_form /\
  json_loads (H := Edge.world)
    (tag_get Edge.sold_out_form "data-product_variations") = Ok (PList []) /\
  py_iter (H := Edge.world) (PList []) = Ok [] /\
  parse_product (H := Edge.world) Themarket Edge.sold_out
    (Some Edge.url_sold_out) [] = Ok [].
Proof.
  assert (Htitle : find Edge.sold_out product_title_query
                   = Some (Shop.el "h1" ["product_title"] []
                             [NavigableString "Sold out"]))
    by (vm_compute; reflexivity).
  assert (Hform : find Edge.sold_out variations_form_query
                  = Some Edge.sold_out_form) by (vm_compute; reflexivity).
  assert (Hdata : json_loads (H := Edge.world)
                    (tag_get Edge.sold_out_form "data-product_variations")
                  = Ok (PList [])) by (vm_compute; reflexivity).
  split; [exact Htitle|]. split; [exact Hform|]. split; [exact Hdata|].
  split; [reflexivity|].
  exact (X10_empty_payload_adds_nothing (H := Edge.world) Themarket
           Edge.sold_out (Some Edge.url_sold_out) [] _ _ _
           Htitle Hform Hdata eq_refl).
Defined.
